(** * Flomo & Obsidian Quick Memo: the submission flow and its two HTTP clients

    A shallow embedding of [flomoAPI.js] (classes [FlomoAPI] and
    [ObsidianWriter]) and of the submission part of [popup.js]
    ([reinitializeApis], [updateStatus], [showResult],
    [updateSubmitButtonState], [submitNote]), followed by the properties the
    specification states about them.

    Layout: the JavaScript values the code handles ([Js]), the browser
    interfaces it calls ([Web]), the effect monad the code runs in, the two
    client classes, the popup, and then the theorems. *)

From Stdlib Require Import List String Ascii Bool Arith ZArith NArith Lia.
From Stdlib Require Import DecimalString.
Import ListNotations.

Set Implicit Arguments.

(* ================================================================== *)
(** ** JavaScript values *)
(* ================================================================== *)

Module Js.

(** A JavaScript string is a sequence of UTF-16 code units. *)
Definition code_unit := N.
Definition jsstring := list code_unit.

(** A string literal of the source. Every literal of the embedded code is
    plain ASCII, so byte and code unit coincide. *)
Definition lit (s : string) : jsstring :=
  map N_of_ascii (list_ascii_of_string s).

(** Strict equality [a === b] of two strings. *)
Fixpoint eqb (a b : jsstring) : bool :=
  match a, b with
  | [], [] => true
  | x :: a', y :: b' => (x =? y)%N && eqb a' b'
  | _, _ => false
  end.

(** [ToBoolean] on a string: only the empty string is falsy. *)
Definition truthy (s : jsstring) : bool :=
  match s with [] => false | _ :: _ => true end.

(** [ToBoolean] on a value that is a string or [undefined]. *)
Definition truthy_opt (s : option jsstring) : bool :=
  match s with None => false | Some s => truthy s end.

(** ECMAScript [WhiteSpace] and [LineTerminator] code points, the ones
    [String.prototype.trim] strips (all of them lie in the BMP). *)
Definition is_white_space (c : code_unit) : bool :=
  ((9 <=? c) && (c <=? 13)            (* TAB, LF, VT, FF, CR *)
   || (c =? 32)                       (* SPACE *)
   || (c =? 160)                      (* NO-BREAK SPACE *)
   || (c =? 5760)                     (* U+1680 *)
   || ((8192 <=? c) && (c <=? 8202))  (* U+2000 .. U+200A *)
   || (c =? 8232) || (c =? 8233)      (* U+2028, U+2029 *)
   || (c =? 8239)                     (* U+202F *)
   || (c =? 8287)                     (* U+205F *)
   || (c =? 12288)                    (* U+3000 *)
   || (c =? 65279))%N.                (* U+FEFF *)

Fixpoint trimStart (s : jsstring) : jsstring :=
  match s with
  | [] => []
  | c :: rest => if is_white_space c then trimStart rest else s
  end.

Definition trimEnd (s : jsstring) : jsstring := rev (trimStart (rev s)).

(** [String.prototype.trim]. *)
Definition trim (s : jsstring) : jsstring := trimEnd (trimStart s).

(** [String.prototype.padStart (maxLength, fillString)]. *)
Definition padStart (s : jsstring) (maxLength : nat) (fillString : jsstring)
  : jsstring :=
  let stringLength := List.length s in
  if maxLength <=? stringLength then s
  else match fillString with
       | [] => s
       | _ :: _ =>
           let fillLen := maxLength - stringLength in
           firstn fillLen (List.concat (repeat fillString fillLen)) ++ s
       end.

(** [Array.prototype.join] on an array of strings. *)
Fixpoint join (sep : jsstring) (l : list jsstring) : jsstring :=
  match l with
  | [] => []
  | [x] => x
  | x :: rest => x ++ sep ++ join sep rest
  end.

(** [String(n)] / template interpolation of a Number holding a
    non-negative integer (below 1e21, where JavaScript prints plain
    decimal digits). *)
Definition String_of_nat (n : nat) : jsstring :=
  lit (NilZero.string_of_uint (Nat.to_uint n)).

(** The same for an integer of either sign. *)
Definition String_of_Z (z : Z) : jsstring :=
  lit (NilZero.string_of_int (Z.to_int z)).

(** *** Parsed JSON *)

(** The values [JSON.parse] / [response.json()] can produce. A Number is
    carried by its [Number::toString] rendering: the code below only ever
    converts parsed numbers to strings or tests their truthiness, and a
    parsed number (never [NaN]) is falsy exactly when it prints as [0]. *)
#[warnings="-register-all"] Inductive Json : Type :=
| JNull
| JBool (b : bool)
| JNumber (rendering : jsstring)
| JString (s : jsstring)
| JArray (items : list Json)
| JObject (props : list (jsstring * Json)).

(** [ToBoolean]. *)
Definition Json_truthy (v : Json) : bool :=
  match v with
  | JNull => false
  | JBool b => b
  | JNumber r => negb (eqb r (lit "0"))
  | JString s => truthy s
  | JArray _ => true
  | JObject _ => true
  end.

(** The member named [key]. A parsed object holds each of its members
    once (of a name repeated in the text [JSON.parse] keeps the last
    value), so the first binding found is the member. *)
Fixpoint lookup (key : jsstring) (props : list (jsstring * Json))
  : option Json :=
  match props with
  | [] => None
  | (k, v) :: rest => if eqb k key then Some v else lookup key rest
  end.

(** Property read [v.key] on a non-nullish parsed value, for a key that no
    prototype defines (such as [message]): own properties of an object,
    [undefined] ([None]) on everything else. *)
Definition get_prop (v : Json) (key : jsstring) : option Json :=
  match v with
  | JObject props => lookup key props
  | _ => None
  end.

(** [ToString] of a parsed value, as a template literal performs it;
    [None] when the conversion throws a [TypeError].

    A parsed object is an ordinary object whose prototype is
    [Object.prototype] and whose own properties are the members of the JSON
    text, none of them a function. [ToPrimitive] asks it for [toString] and
    then for [valueOf]: an own [toString] member is not callable and is
    passed over, [Object.prototype.valueOf] returns the object itself, an
    own [valueOf] member is not callable either, so with an own [toString]
    member no primitive is found and the conversion throws; without one,
    [Object.prototype.toString] answers. A parsed array has only its
    elements, so [Array.prototype.toString] joins them with commas, a
    [null] element printing as the empty string; converting an element may
    throw in turn. *)
Fixpoint Json_to_string (v : Json) : option jsstring :=
  match v with
  | JNull => Some (lit "null")
  | JBool true => Some (lit "true")
  | JBool false => Some (lit "false")
  | JNumber r => Some r
  | JString s => Some s
  | JArray items =>
      option_map (join (lit ","))
        ((fix elements (l : list Json) : option (list jsstring) :=
            match l with
            | [] => Some []
            | x :: rest =>
                match (match x with
                       | JNull => Some []
                       | _ => Json_to_string x
                       end) with
                | Some s => option_map (cons s) (elements rest)
                | None => None
                end
            end) items)
  | JObject props =>
      match lookup (lit "toString") props with
      | Some _ => None
      | None => Some (lit "[object Object]")
      end
  end.

(** The same for a value that may be [undefined]. *)
Definition to_string (v : option Json) : option jsstring :=
  match v with
  | None => Some (lit "undefined")
  | Some x => Json_to_string x
  end.

(** [ToString] on a value that is a string or [undefined]. *)
Definition string_value (s : option jsstring) : jsstring :=
  match s with
  | None => lit "undefined"
  | Some s => s
  end.

(** The line feed a [\n] escape of the source denotes. *)
Definition LF : jsstring := [10%N].

(** *** Errors and promises *)

(** A thrown value; the code only reads [error.message]. *)
Record Error : Type := mkError { message : jsstring }.

(** The [TypeError] of a [ToString] that finds no primitive value. *)
Definition TypeError_primitive : Error :=
  mkError (lit "Cannot convert object to primitive value").

(** A settled promise. *)
Inductive Promise (A : Type) : Type :=
| Fulfilled (a : A)
| Rejected (e : Error).
Arguments Rejected {A} e.

(** *** Dates *)

(** The local-time fields of a [Date], as its getters return them
    ([getMonth] is 0-based). *)
Record Date : Type := mkDate {
  getFullYear : Z;
  getMonth : nat;
  getDate : nat;
  getHours : nat;
  getMinutes : nat;
  getSeconds : nat;
  getMilliseconds : nat
}.

End Js.

Import Js.

(* ================================================================== *)
(** ** The browser interfaces the code calls *)
(* ================================================================== *)

Module Web.

(** The arguments of one [fetch(url, init)] call. [body] is the value the
    code hands to [JSON.stringify] ([None]: the call passes no body). *)
Record Request : Type := mkRequest {
  url : jsstring;
  method : jsstring;
  headers : list (jsstring * jsstring);
  body : option Json
}.

(** What the code reads of a [Response]: the status line, and what the
    promises [response.json()] and [response.text()] settle to. *)
Record Response : Type := mkResponse {
  status : nat;
  statusText : jsstring;
  json : Promise Json;
  text : Promise jsstring
}.

(** [response.ok], which the Fetch standard defines as a status in the
    range 200 to 299. *)
Definition ok (r : Response) : bool :=
  (200 <=? status r) && (status r <=? 299).

End Web.
Import Web.

(* ================================================================== *)
(** ** Effects *)
(* ================================================================== *)

(** The result every client operation promises:
    [{success: boolean, message: string}]. *)
Record Outcome : Type := mkOutcome {
  success : bool;
  message : jsstring
}.

(** The methods of the two client classes. *)
Inductive ClientCall : Type :=
| FlomoAPI_sendToFlomo (content : jsstring)
| FlomoAPI_testConnection
| ObsidianWriter_sendToObsidian (content : jsstring)
| ObsidianWriter_testConnection.

(** What a run leaves behind: every entry into a client method and every
    [fetch] call, in program order. *)
Inductive Event : Type :=
| EvCall (c : ClientCall)
| EvFetch (req : Request).

(** The environment. The network and the clock are oracles over the history
    so far, so any sequence of answers is some environment; [toLocaleString]
    is the platform's locale-dependent rendering of a date. *)
Record Env : Type := mkEnv {
  network : list Event -> Request -> Promise Response;
  clock : list Event -> Date;
  toLocaleString : Date -> jsstring
}.

(** How the evaluation of a piece of code ends: with a value, or with a
    thrown error. What throws in the embedded code: awaiting a rejected
    promise ([fetch] that got no response, [response.json()] or
    [response.text()] that could not read the body), calling a method on
    a handler that is still [null], and interpolating into a template
    literal an object that has no string conversion. *)
Inductive Completion (A : Type) : Type :=
| Normal (a : A)
| Throw (e : Error).
Arguments Throw {A} e.

Section Monad.

(** [H] is whatever mutable state the caller owns besides the trace (the
    popup's DOM and application state); the client classes are generic in
    it and so cannot touch it. *)
Variable H : Type.

Record World : Type := mkWorld {
  trace : list Event;
  heap : H
}.

Definition M (A : Type) : Type := Env -> World -> Completion A * World.

Definition ret {A} (a : A) : M A := fun _ w => (Normal a, w).

Definition bind {A B} (m : M A) (k : A -> M B) : M B :=
  fun env w =>
    match m env w with
    | (Normal a, w') => k a env w'
    | (Throw e, w') => (Throw e, w')
    end.

Definition throw {A} (e : Error) : M A := fun _ w => (Throw e, w).

(** [try { body } catch (error) { handler }]. *)
Definition try_catch {A} (body : M A) (handler : Error -> M A) : M A :=
  fun env w =>
    match body env w with
    | (Normal a, w') => (Normal a, w')
    | (Throw e, w') => handler e env w'
    end.

Definition get_heap : M H := fun _ w => (Normal (heap w), w).

Definition modify_heap (f : H -> H) : M unit :=
  fun _ w => (Normal tt, mkWorld (trace w) (f (heap w))).

(** [fetch(url, init)]: the request goes out, the returned promise settles
    to what the network answers. *)
Definition fetch (req : Request) : M (Promise Response) :=
  fun env w =>
    (Normal (network env (trace w) req),
     mkWorld (trace w ++ [EvFetch req]) (heap w)).

(** [new Date()]. *)
Definition new_Date : M Date :=
  fun env w => (Normal (clock env (trace w)), w).

Definition Date_toLocaleString (d : Date) : M jsstring :=
  fun env w => (Normal (toLocaleString env d), w).

(** [await p]. *)
Definition await {A} (p : Promise A) : M A :=
  match p with
  | Fulfilled a => ret a
  | Rejected e => throw e
  end.

(** [`${v}`]: what a template literal puts in place of an interpolated
    value; it throws where [ToString] does. *)
Definition interpolate (v : option Json) : M jsstring :=
  match to_string v with
  | Some s => ret s
  | None => throw TypeError_primitive
  end.

(** [p.catch(handler)]. *)
Definition Promise_catch {A} (p : Promise A) (handler : Error -> A)
  : Promise A :=
  match p with
  | Fulfilled a => Fulfilled a
  | Rejected e => Fulfilled (handler e)
  end.

(** Calling an [async] method: the call is recorded, the body runs, and the
    caller gets a promise that is fulfilled with the returned value or
    rejected with whatever the body threw. The call itself never throws.

    The body is run to its end at the call. In the browser it runs to its
    first [await] and resumes when the awaited promise settles; the bodies
    embedded here emit nothing after their [fetch], so the trace is the
    same, and the answers are the environment's in either case. *)
Definition async (c : ClientCall) {A} (body : M A) : M (Promise A) :=
  fun env w =>
    match body env (mkWorld (trace w ++ [EvCall c]) (heap w)) with
    | (Normal a, w') => (Normal (Fulfilled a), w')
    | (Throw e, w') => (Normal (Rejected e), w')
    end.

(** [Promise.all(ps)]: fulfilled with every value, in order, when every
    promise is fulfilled; rejected as soon as one is rejected. *)
Fixpoint Promise_all {A} (ps : list (Promise A)) : Promise (list A) :=
  match ps with
  | [] => Fulfilled []
  | Fulfilled a :: rest =>
      match Promise_all rest with
      | Fulfilled l => Fulfilled (a :: l)
      | Rejected e => Rejected e
      end
  | Rejected e :: _ => Rejected e
  end.

End Monad.

Arguments ret {H A} a.
Arguments throw {H A} e.
Arguments fetch {H} req.
Arguments new_Date {H}.
Arguments Date_toLocaleString {H} d.
Arguments await {H A} p.
Arguments interpolate {H} v.
Arguments get_heap {H}.
Arguments async {H} c {A} body.

Notation "x <- m ;; k" := (bind m (fun x => k))
  (at level 61, m at next level, right associativity).
Notation "m ;; k" := (bind m (fun _ => k))
  (at level 61, right associativity).

(* ================================================================== *)
(** ** flomoAPI.js: class FlomoAPI *)
(* ================================================================== *)

Module FlomoAPI.

(** An instance; [constructor(api_url)] stores its argument, which the popup
    takes from the saved configuration (a string, or [undefined] when the
    configuration has no such field). *)
Record t : Type := new { api_url : option jsstring }.

Section Methods.
Variable H : Type.

Definition sendToFlomo (this : t) (content : jsstring)
  : M H (Promise Outcome) :=
  async (FlomoAPI_sendToFlomo content) (
    if negb (truthy_opt (api_url this)) then
      ret (mkOutcome false (lit "Flomo API URL is not set."))
    else
      try_catch (
        p <- fetch (mkRequest
                      (string_value (api_url this))
                      (lit "POST")
                      [(lit "Content-Type", lit "application/json")]
                      (Some (JObject [(lit "content", JString content)]))) ;;
        response <- await p ;;
        (* Flomo API returns a 200 OK for successful requests. *)
        if ok response then
          ret (mkOutcome true (lit "Note sent to Flomo successfully."))
        else
          (* Attempt to get more detailed error information from the
             response body. *)
          errorData <- await (Promise_catch (json response)
                                            (fun _ => JNull)) ;;
          let message :=
            if Json_truthy errorData
            then get_prop errorData (lit "message")
            else Some (JString (lit "HTTP Error: "
                                ++ String_of_nat (status response))) in
          detail <- interpolate message ;;
          ret (mkOutcome false (lit "Failed to send to Flomo. " ++ detail)))
        (fun error =>
           (* console.error('Error sending to Flomo:', error) *)
           ret (mkOutcome false
                  (lit "Network or other error: " ++ Js.message error)))).

Definition testConnection (this : t) : M H (Promise Outcome) :=
  async FlomoAPI_testConnection (
    (* The content for the test note includes a timestamp. *)
    now <- new_Date ;;
    stamp <- Date_toLocaleString now ;;
    let testContent :=
      lit "#flomo-obsidian-extension" ++ LF
      ++ lit "This is a test message from the Flomo & Obsidian Quick Memo extension."
      ++ LF ++ stamp in
    p <- sendToFlomo this testContent ;;
    await p).

End Methods.

End FlomoAPI.

(* ================================================================== *)
(** ** flomoAPI.js: class ObsidianWriter *)
(* ================================================================== *)

Module ObsidianWriter.

Record t : Type := mk {
  vaultName : jsstring;
  apiToken : option jsstring;
  port : jsstring;
  apiUrl : jsstring
}.

(** [constructor(vaultName, apiToken, port = '27123')]. *)
Definition new (vaultName apiToken port : option jsstring) : t :=
  let port := match port with
              | None => lit "27123"
              | Some p => p
              end in
  mk (if truthy_opt vaultName then trim (string_value vaultName) else [])
     apiToken
     port
     (lit "http://127.0.0.1:" ++ port).

Section Methods.
Variable H : Type.

(** The body of [generateFileName] below its first line, [now] being the
    [Date] that line creates. Format: YYYY-MM-DD_HH-mm-ss.md *)
Definition generateFileName_at (now : Date) : jsstring :=
  let year := getFullYear now in
  let month := padStart (String_of_nat (getMonth now + 1)) 2 (lit "0") in
  let day := padStart (String_of_nat (getDate now)) 2 (lit "0") in
  let hours := padStart (String_of_nat (getHours now)) 2 (lit "0") in
  let minutes := padStart (String_of_nat (getMinutes now)) 2 (lit "0") in
  let seconds := padStart (String_of_nat (getSeconds now)) 2 (lit "0") in
  String_of_Z year ++ lit "-" ++ month ++ lit "-" ++ day ++ lit "_"
  ++ hours ++ lit "-" ++ minutes ++ lit "-" ++ seconds ++ lit ".md".

Definition generateFileName (this : t) : M H jsstring :=
  now <- new_Date ;;
  ret (generateFileName_at now).

Definition sendToObsidian (this : t) (content : jsstring)
  : M H (Promise Outcome) :=
  async (ObsidianWriter_sendToObsidian content) (
    if negb (truthy (vaultName this)) || negb (truthy_opt (apiToken this))
    then
      ret (mkOutcome false
             (lit "Obsidian Vault Name or API Token is not set."))
    else
      fileName <- generateFileName this ;;
      let url := apiUrl this ++ lit "/notes" in
      (* console.log(`Attempting to send note to Obsidian:`, ...) *)
      try_catch (
        p <- fetch (mkRequest
                      url
                      (lit "POST")
                      [(lit "Content-Type", lit "application/json");
                       (lit "Authorization",
                        lit "Bearer " ++ string_value (apiToken this))]
                      (Some (JObject
                         [(lit "path",
                           JString (vaultName this ++ lit "/" ++ fileName));
                          (lit "content", JString content)]))) ;;
        response <- await p ;;
        if ok response then
          ret (mkOutcome true
                 (lit "Note '" ++ fileName
                  ++ lit "' created in Obsidian successfully."))
        else
          errorText <- await (text response) ;;
          ret (mkOutcome false
                 (lit "Failed to create note in Obsidian. HTTP "
                  ++ String_of_nat (status response) ++ lit ": "
                  ++ errorText)))
        (fun error =>
           (* console.error('Error sending to Obsidian:', error) *)
           ret (mkOutcome false
                  (lit "Network or other error: " ++ Js.message error)))).

Definition testConnection (this : t) : M H (Promise Outcome) :=
  async ObsidianWriter_testConnection (
    if negb (truthy (vaultName this)) || negb (truthy_opt (apiToken this))
    then
      ret (mkOutcome false
             (lit "Obsidian Vault Name or API Token is not set."))
    else
      let url := apiUrl this ++ lit "/vault/" in
      (* console.log(`Testing Obsidian connection to URL: ${url}`) *)
      try_catch (
        p <- fetch (mkRequest
                      url
                      (lit "HEAD")
                      [(lit "Authorization",
                        lit "Bearer " ++ string_value (apiToken this))]
                      None) ;;
        response <- await p ;;
        if ok response then
          ret (mkOutcome true (lit "Obsidian API connection successful."))
        else
          let message :=
            lit "Obsidian API connection failed. HTTP "
            ++ String_of_nat (status response) ++ lit ": "
            ++ statusText response in
          let message :=
            if status response =? 401 then
              lit "Connection failed: Unauthorized. Check your API Token."
            else if status response =? 404 then
              lit "Connection failed: Not Found. Check if the 'Local REST API' plugin is enabled in Obsidian."
            else message in
          ret (mkOutcome false message))
        (fun error =>
           (* console.error('Error testing Obsidian connection:', error) *)
           ret (mkOutcome false
                  (lit "Network error. Is Obsidian running and the API plugin enabled on port "
                   ++ port this ++ lit "?")))).

End Methods.

End ObsidianWriter.

Arguments FlomoAPI.sendToFlomo {H} this content.
Arguments FlomoAPI.testConnection {H} this.
Arguments ObsidianWriter.generateFileName {H} this.
Arguments ObsidianWriter.sendToObsidian {H} this content.
Arguments ObsidianWriter.testConnection {H} this.

(* ================================================================== *)
(** ** popup.js *)
(* ================================================================== *)

Module Popup.

(** One [div] appended to the result box. *)
Record ResultBlock : Type := mkBlock {
  className : jsstring;
  innerHTML : jsstring
}.

(** The properties of the DOM elements that the submission flow reads or
    writes ([elements.memoContent.value] is [memoContent_value], and so on).
    [resultBox_hidden] says whether the class list of the result box holds
    ['hidden']; [resultBox_children] is its content. *)
Record Elements : Type := mkElements {
  memoContent_value : jsstring;
  submitButton_disabled : bool;
  submitButton_textContent : jsstring;
  statusMessage_textContent : jsstring;
  statusMessage_className : jsstring;
  resultBox_hidden : bool;
  resultBox_children : list ResultBlock;
  sendToFlomo_checked : bool;
  sendToObsidian_checked : bool
}.

(** The saved configuration; a field the stored object lacks reads as
    [undefined]. *)
Record Config : Type := mkConfig {
  flomoUrl : option jsstring;
  obsidianVault : option jsstring;
  obsidianToken : option jsstring;
  sendToFlomo : option bool;
  sendToObsidian : option bool
}.

(** The [state] object; both API handlers start as [null]. *)
Record State : Type := mkState {
  config : Config;
  flomoAPI : option FlomoAPI.t;
  obsidianAPI : option ObsidianWriter.t
}.

(** Everything mutable the popup script closes over. *)
Record Page : Type := mkPage {
  elements : Elements;
  state : State
}.

Definition set_memoContent_value (v : jsstring) (e : Elements) : Elements :=
  mkElements v (submitButton_disabled e) (submitButton_textContent e)
    (statusMessage_textContent e) (statusMessage_className e)
    (resultBox_hidden e) (resultBox_children e)
    (sendToFlomo_checked e) (sendToObsidian_checked e).

Definition set_submitButton_disabled (v : bool) (e : Elements) : Elements :=
  mkElements (memoContent_value e) v (submitButton_textContent e)
    (statusMessage_textContent e) (statusMessage_className e)
    (resultBox_hidden e) (resultBox_children e)
    (sendToFlomo_checked e) (sendToObsidian_checked e).

Definition set_submitButton_textContent (v : jsstring) (e : Elements)
  : Elements :=
  mkElements (memoContent_value e) (submitButton_disabled e) v
    (statusMessage_textContent e) (statusMessage_className e)
    (resultBox_hidden e) (resultBox_children e)
    (sendToFlomo_checked e) (sendToObsidian_checked e).

Definition set_statusMessage_textContent (v : jsstring) (e : Elements)
  : Elements :=
  mkElements (memoContent_value e) (submitButton_disabled e)
    (submitButton_textContent e) v (statusMessage_className e)
    (resultBox_hidden e) (resultBox_children e)
    (sendToFlomo_checked e) (sendToObsidian_checked e).

Definition set_statusMessage_className (v : jsstring) (e : Elements)
  : Elements :=
  mkElements (memoContent_value e) (submitButton_disabled e)
    (submitButton_textContent e) (statusMessage_textContent e) v
    (resultBox_hidden e) (resultBox_children e)
    (sendToFlomo_checked e) (sendToObsidian_checked e).

Definition set_resultBox_hidden (v : bool) (e : Elements) : Elements :=
  mkElements (memoContent_value e) (submitButton_disabled e)
    (submitButton_textContent e) (statusMessage_textContent e)
    (statusMessage_className e) v (resultBox_children e)
    (sendToFlomo_checked e) (sendToObsidian_checked e).

Definition set_resultBox_children (v : list ResultBlock) (e : Elements)
  : Elements :=
  mkElements (memoContent_value e) (submitButton_disabled e)
    (submitButton_textContent e) (statusMessage_textContent e)
    (statusMessage_className e) (resultBox_hidden e) v
    (sendToFlomo_checked e) (sendToObsidian_checked e).

(** Reading and assigning a property of [elements]. *)
Definition read {A} (prop : Elements -> A) : M Page A :=
  page <- get_heap ;; ret (prop (elements page)).

Definition assign (setter : Elements -> Elements) : M Page unit :=
  modify_heap (fun page => mkPage (setter (elements page)) (state page)).

(** A [TypeError]: a method is called on [null]. *)
Definition TypeError_null (method : string) : Error :=
  mkError (lit "Cannot read properties of null (reading '" ++ lit method
           ++ lit "')").

(** [state.flomoAPI] and [state.obsidianAPI], about to have a method called
    on them. *)
Definition state_flomoAPI : M Page FlomoAPI.t :=
  page <- get_heap ;;
  match flomoAPI (state page) with
  | Some api => ret api
  | None => throw (TypeError_null "sendToFlomo")
  end.

Definition state_obsidianAPI : M Page ObsidianWriter.t :=
  page <- get_heap ;;
  match obsidianAPI (state page) with
  | Some api => ret api
  | None => throw (TypeError_null "sendToObsidian")
  end.

(** Creates new instances of the API handlers based on the current
    configuration. *)
Definition reinitializeApis : M Page unit :=
  modify_heap (fun page =>
    let config := config (state page) in
    mkPage (elements page)
      (mkState config
         (Some (FlomoAPI.new (flomoUrl config)))
         (Some (ObsidianWriter.new (obsidianVault config)
                                   (obsidianToken config) None)))).

Definition updateStatus (message type : jsstring) : M Page unit :=
  assign (set_statusMessage_textContent message) ;;
  assign (set_statusMessage_className (lit "status-message " ++ type)) ;;
  (* Hide the detailed result box *)
  assign (set_resultBox_hidden true).

Definition showResult (successMessages errorMessages : list jsstring)
  : M Page unit :=
  assign (set_statusMessage_textContent []) ;;
  assign (set_resultBox_hidden false) ;;
  assign (set_resultBox_children []) ;;
  (if 0 <? List.length successMessages then
     children <- read resultBox_children ;;
     assign (set_resultBox_children
               (children ++
                [mkBlock (lit "result-block success")
                         (lit "<strong>Success:</strong><br>"
                          ++ join (lit "<br>") successMessages)]))
   else ret tt) ;;
  (if 0 <? List.length errorMessages then
     children <- read resultBox_children ;;
     assign (set_resultBox_children
               (children ++
                [mkBlock (lit "result-block error")
                         (lit "<strong>Error:</strong><br>"
                          ++ join (lit "<br>") errorMessages)]))
   else ret tt).

Definition updateSubmitButtonState : M Page unit :=
  toFlomo <- read sendToFlomo_checked ;;
  toObsidian <- read sendToObsidian_checked ;;
  let text :=
    if toFlomo && toObsidian then lit "Submit to Both"
    else if toFlomo then lit "Submit to Flomo"
    else if toObsidian then lit "Submit to Obsidian"
    else lit "Submit" in
  assign (set_submitButton_textContent text) ;;
  (* Disable the button if no target is selected. *)
  assign (set_submitButton_disabled (negb toFlomo && negb toObsidian)).

(** The array [submissionPromises] of [submitNote] (the lines from its
    declaration up to the [Promise.all]): one started send per selected
    destination. *)
Definition submissionPromises (content : jsstring)
  (toFlomo toObsidian : bool) : M Page (list (Promise Outcome)) :=
  let submissionPromises := [] in
  submissionPromises <-
    (if toFlomo then
       api <- state_flomoAPI ;;
       p <- FlomoAPI.sendToFlomo api content ;;
       ret (submissionPromises ++ [p])
     else ret submissionPromises) ;;
  submissionPromises <-
    (if toObsidian then
       api <- state_obsidianAPI ;;
       p <- ObsidianWriter.sendToObsidian api content ;;
       ret (submissionPromises ++ [p])
     else ret submissionPromises) ;;
  ret submissionPromises.

(** Handles the main note submission logic. *)
Definition submitNote : M Page unit :=
  value <- read memoContent_value ;;
  let content := trim value in
  if negb (truthy content) then
    updateStatus (lit "Note content cannot be empty.") (lit "error")
  else
    toFlomo <- read sendToFlomo_checked ;;
    toObsidian <- read sendToObsidian_checked ;;
    if negb toFlomo && negb toObsidian then
      updateStatus (lit "Please select a destination (Flomo or Obsidian).")
                   (lit "error")
    else
      updateStatus (lit "Submitting...") (lit "loading") ;;
      assign (set_submitButton_disabled true) ;;
      promises <- submissionPromises content toFlomo toObsidian ;;
      settledResults <- await (Promise_all promises) ;;
      (* Process and display results from all submissions. *)
      let successMessages :=
        map message (filter success settledResults) in
      let errorMessages :=
        map message (filter (fun r => negb (success r)) settledResults) in
      showResult successMessages errorMessages ;;
      (* Only clear the text area if all submissions were successful. *)
      (if List.length errorMessages =? 0 then
         assign (set_memoContent_value [])
       else ret tt) ;;
      assign (set_submitButton_disabled false) ;;
      updateSubmitButtonState.

End Popup.

(* ================================================================== *)
(** ** Observations, and the requests and messages the specification names *)
(* ================================================================== *)

(* Literals and string primitives stay folded while runs are simplified. *)
Arguments lit : simpl never.
Arguments String_of_nat : simpl never.
Arguments String_of_Z : simpl never.
Arguments padStart : simpl never.
Arguments trim : simpl never.
Arguments Popup.submissionPromises : simpl never.

(** The client methods entered along a trace, and the requests sent. *)
Definition calls (tr : list Event) : list ClientCall :=
  flat_map (fun ev => match ev with EvCall c => [c] | EvFetch _ => [] end) tr.

Definition requests (tr : list Event) : list Request :=
  flat_map (fun ev => match ev with EvCall _ => [] | EvFetch r => [r] end) tr.

(** Follows the specification (External interfaces): the webhook request is
    [POST <url>] with body [{"content": string}]. *)
Definition webhook_request (webhook content : jsstring) : Request :=
  mkRequest webhook (lit "POST")
    [(lit "Content-Type", lit "application/json")]
    (Some (JObject [(lit "content", JString content)])).

(** Follows the specification: [POST <base>/notes] with the two headers and
    body [{"path": "<vault>/<filename>", "content": string}]. *)
Definition notes_request (base token vault fileName content : jsstring)
  : Request :=
  mkRequest (base ++ lit "/notes") (lit "POST")
    [(lit "Content-Type", lit "application/json");
     (lit "Authorization", lit "Bearer " ++ token)]
    (Some (JObject [(lit "path", JString (vault ++ lit "/" ++ fileName));
                    (lit "content", JString content)])).

(** Follows the specification: [HEAD <base>/vault/] with the bearer token
    header only, and no body. *)
Definition probe_request (base token : jsstring) : Request :=
  mkRequest (base ++ lit "/vault/") (lit "HEAD")
    [(lit "Authorization", lit "Bearer " ++ token)]
    None.

(** The loopback base address of the local REST server. *)
Definition loopback (port : jsstring) : jsstring :=
  lit "http://127.0.0.1:" ++ port.

(** Whether an Obsidian client has both a vault name and a token. *)
Definition configured (this : ObsidianWriter.t) : bool :=
  truthy (ObsidianWriter.vaultName this)
  && truthy_opt (ObsidianWriter.apiToken this).

(** The three failure messages of the probe. *)
Definition unauthorized_message : jsstring :=
  lit "Connection failed: Unauthorized. Check your API Token.".

Definition not_found_message : jsstring :=
  lit "Connection failed: Not Found. Check if the 'Local REST API' plugin is enabled in Obsidian.".

Definition generic_failure_message (status : nat) (statusText : jsstring)
  : jsstring :=
  lit "Obsidian API connection failed. HTTP " ++ String_of_nat status
  ++ lit ": " ++ statusText.

(** Follows the specification's format [YYYY-MM-DD_HH-mm-ss.md], digit by
    digit: the code unit of a decimal digit, a number below 100 in two
    digits, a year in four, and the whole name. *)
Definition digit (n : nat) : code_unit := (48 + N.of_nat n)%N.

Definition two_digits (n : nat) : jsstring :=
  [digit (n / 10); digit (n mod 10)].

Definition four_digits (y : Z) : jsstring :=
  map (fun z => Z.to_N (48 + z))
      [y / 1000; (y / 100) mod 10; (y / 10) mod 10; y mod 10]%Z.

Definition MM_DD_HH_mm_ss_md (d : Date) : jsstring :=
  lit "-" ++ two_digits (getMonth d + 1) ++ lit "-" ++ two_digits (getDate d)
  ++ lit "_" ++ two_digits (getHours d) ++ lit "-"
  ++ two_digits (getMinutes d) ++ lit "-" ++ two_digits (getSeconds d)
  ++ lit ".md".

Definition timestamp_name (d : Date) : jsstring :=
  four_digits (getFullYear d) ++ MM_DD_HH_mm_ss_md d.

(** A date whose getters are in the ranges a [Date] gives them. *)
Definition clock_fields (d : Date) : Prop :=
  getMonth d < 12 /\ 1 <= getDate d <= 31 /\ getHours d < 24
  /\ getMinutes d < 60 /\ getSeconds d < 60.

(** Such a date in a year of four digits. *)
Definition wall_clock (d : Date) : Prop :=
  (1000 <= getFullYear d <= 9999)%Z /\ clock_fields d.

(** Two instants of the same wall-clock second. *)
Definition same_second (d1 d2 : Date) : Prop :=
  getFullYear d1 = getFullYear d2 /\ getMonth d1 = getMonth d2
  /\ getDate d1 = getDate d2 /\ getHours d1 = getHours d2
  /\ getMinutes d1 = getMinutes d2 /\ getSeconds d1 = getSeconds d2.

(** [P] holds of the [count] integers from [start] on. *)
Fixpoint all_from (P : Z -> bool) (start : Z) (count : nat) : bool :=
  match count with
  | 0 => true
  | S count' => P start && all_from P (Z.succ start) count'
  end.

(** What belongs to the selected destinations, Flomo first. *)
Definition selected {A} (toFlomo toObsidian : bool) (flomo obsidian : A)
  : list A :=
  (if toFlomo then [flomo] else []) ++ (if toObsidian then [obsidian] else []).

(** What [submitNote] renders and leaves in the page once the outcomes
    [outcomes] have come back. *)
Definition successMessages (outcomes : list Outcome) : list jsstring :=
  map message (filter success outcomes).

Definition errorMessages (outcomes : list Outcome) : list jsstring :=
  map message (filter (fun r => negb (success r)) outcomes).

Definition result_blocks (outcomes : list Outcome) : list Popup.ResultBlock :=
  (if 0 <? List.length (successMessages outcomes) then
     [Popup.mkBlock (lit "result-block success")
        (lit "<strong>Success:</strong><br>"
         ++ join (lit "<br>") (successMessages outcomes))]
   else [])
  ++ (if 0 <? List.length (errorMessages outcomes) then
        [Popup.mkBlock (lit "result-block error")
           (lit "<strong>Error:</strong><br>"
            ++ join (lit "<br>") (errorMessages outcomes))]
      else []).

Definition submit_label (toFlomo toObsidian : bool) : jsstring :=
  if toFlomo && toObsidian then lit "Submit to Both"
  else if toFlomo then lit "Submit to Flomo"
  else if toObsidian then lit "Submit to Obsidian"
  else lit "Submit".

Definition after_submission (els : Popup.Elements) (outcomes : list Outcome)
  : Popup.Elements :=
  Popup.mkElements
    (match errorMessages outcomes with
     | [] => []
     | _ :: _ => Popup.memoContent_value els
     end)
    (negb (Popup.sendToFlomo_checked els)
     && negb (Popup.sendToObsidian_checked els))
    (submit_label (Popup.sendToFlomo_checked els)
                  (Popup.sendToObsidian_checked els))
    []
    (lit "status-message " ++ lit "loading")
    false
    (result_blocks outcomes)
    (Popup.sendToFlomo_checked els)
    (Popup.sendToObsidian_checked els).

(** A submission that passes validation (something is typed, a destination
    is checked), on a page whose API handlers are in place, as they are from
    the first [reinitializeApis] on. *)
Record started (w : World Popup.Page) (fa : FlomoAPI.t)
  (oa : ObsidianWriter.t) : Prop := mkStarted {
  started_content :
    truthy (trim (Popup.memoContent_value (Popup.elements (heap w)))) = true;
  started_destination :
    Popup.sendToFlomo_checked (Popup.elements (heap w))
    || Popup.sendToObsidian_checked (Popup.elements (heap w)) = true;
  started_flomoAPI : Popup.flomoAPI (Popup.state (heap w)) = Some fa;
  started_obsidianAPI : Popup.obsidianAPI (Popup.state (heap w)) = Some oa
}.

Definition is_sendToFlomo (c : ClientCall) : bool :=
  match c with FlomoAPI_sendToFlomo _ => true | _ => false end.

Definition is_sendToObsidian (c : ClientCall) : bool :=
  match c with ObsidianWriter_sendToObsidian _ => true | _ => false end.

(** How many of the events [evs] are calls that [p] selects. *)
Definition count_calls (p : ClientCall -> bool) (evs : list Event) : nat :=
  List.length (filter p (calls evs)).

(* ================================================================== *)
(** ** A sample page and environment *)
(* ================================================================== *)

Module Sample.

Definition webhook : jsstring := lit "https://flomoapp.com/iwh/abc/def/".

Definition now : Date := mkDate 2024 0 5 9 3 7 123.

Definition later : Date := mkDate 2024 0 5 9 3 7 980.

Definition accepted : Response :=
  mkResponse 200 (lit "OK")
    (Fulfilled (JObject [(lit "code", JNumber (lit "0"));
                         (lit "message", JString (lit "ok"))]))
    (Fulfilled (lit "ok")).

Definition rejected : Response :=
  mkResponse 500 (lit "Internal Server Error")
    (Fulfilled (JObject [(lit "code", JNumber (lit "-1"));
                         (lit "message", JString (lit "quota exceeded"))]))
    (Fulfilled (lit "quota exceeded")).

(** A refusal whose body is the JSON text of an object with a [code]
    member and no [message] member. *)
Definition refused_without_message : Response :=
  mkResponse 500 (lit "Internal Server Error")
    (Fulfilled (JObject [(lit "code", JNumber (lit "-1"))]))
    (Fulfilled (lit "{" ++ [34%N] ++ lit "code" ++ [34%N] ++ lit ":-1}")).

(** A refusal whose [message] member is itself an object, with a member
    named [toString]. *)
Definition refused_with_unprintable_message : Response :=
  mkResponse 500 (lit "Internal Server Error")
    (Fulfilled (JObject [(lit "message",
                          JObject [(lit "toString", JNumber (lit "1"))])]))
    (Fulfilled (lit "{" ++ [34%N] ++ lit "message" ++ [34%N] ++ lit ":{"
                ++ [34%N] ++ lit "toString" ++ [34%N] ++ lit ":1}}")).

Definition unauthorized : Response :=
  mkResponse 401 (lit "Unauthorized")
    (Rejected (mkError (lit "Unexpected end of JSON input")))
    (Fulfilled []).

Definition not_found : Response :=
  mkResponse 404 (lit "Not Found")
    (Rejected (mkError (lit "Unexpected token N in JSON at position 0")))
    (Fulfilled (lit "Not Found")).

(** The webhook accepts the note, the local server has no [/notes] route
    and refuses the probe's token. *)
Definition env : Env :=
  mkEnv
    (fun _ req =>
       if eqb (url req) webhook then Fulfilled accepted
       else if eqb (method req) (lit "HEAD") then Fulfilled unauthorized
       else Fulfilled not_found)
    (fun _ => now)
    (fun _ => lit "1/5/2024, 9:03:07 AM").

(** The webhook refuses the note. *)
Definition env_rejecting : Env :=
  mkEnv (fun _ _ => Fulfilled rejected) (fun _ => later)
        (fun _ => lit "1/5/2024, 9:03:07 AM").

(** Every request is answered with [r]. *)
Definition env_answering (r : Response) : Env :=
  mkEnv (fun _ _ => Fulfilled r) (fun _ => later)
        (fun _ => lit "1/5/2024, 9:03:07 AM").

Definition flomo : FlomoAPI.t := FlomoAPI.new (Some webhook).

Definition flomo_unset : FlomoAPI.t := FlomoAPI.new None.

Definition obsidian : ObsidianWriter.t :=
  ObsidianWriter.new (Some (lit " Notes ")) (Some (lit "secret")) None.

Definition obsidian_other_vault : ObsidianWriter.t :=
  ObsidianWriter.new (Some (lit "Elsewhere")) (Some (lit "secret")) None.

Definition obsidian_unset : ObsidianWriter.t :=
  ObsidianWriter.new (Some (lit "Notes")) None None.

Definition config : Popup.Config :=
  Popup.mkConfig (Some webhook) (Some (lit " Notes ")) (Some (lit "secret"))
                 (Some true) (Some true).

Definition elements (value : jsstring) (toFlomo toObsidian : bool)
  : Popup.Elements :=
  Popup.mkElements value false (submit_label toFlomo toObsidian) [] [] true []
                   toFlomo toObsidian.

(** A page after [reinitializeApis], with [value] typed into the input. *)
Definition world (value : jsstring) (toFlomo toObsidian : bool)
  : World Popup.Page :=
  mkWorld []
    (Popup.mkPage (elements value toFlomo toObsidian)
                  (Popup.mkState config (Some flomo) (Some obsidian))).

End Sample.

(* ================================================================== *)
(** ** popup.js: configuration, connection tests, keyboard shortcut *)
(* ================================================================== *)

Module Settings.

(** The settings fields of the popup, which the submission flow never
    touches: the three text inputs and whether the settings panel carries
    the class ['hidden']. *)
Record Inputs : Type := mkInputs {
  flomoUrlInput_value : jsstring;
  obsidianVaultInput_value : jsstring;
  obsidianTokenInput_value : jsstring;
  settingsPanel_hidden : bool
}.

(** [chrome.storage.local], as far as the popup uses it: what is stored
    under the key ['config'] ([None]: nothing yet), and the error its next
    operation fails with, if the storage backend is failing. *)
Record Storage : Type := mkStorage {
  stored_config : option Popup.Config;
  storage_fault : option Error
}.

(** The whole popup: the page of the submission flow, the settings fields
    and the extension's storage. *)
Record Window : Type := mkWindow {
  page : Popup.Page;
  inputs : Inputs;
  storage : Storage
}.

(** A function of the submission flow, run inside the whole popup. *)
Definition lift {A} (m : M Popup.Page A) : M Window A :=
  fun env w =>
    match m env (mkWorld (trace w) (page (heap w))) with
    | (r, w') =>
        (r, mkWorld (trace w')
                    (mkWindow (heap w') (inputs (heap w))
                              (storage (heap w))))
    end.

Definition set_sendToFlomo_checked (v : bool) (e : Popup.Elements)
  : Popup.Elements :=
  Popup.mkElements (Popup.memoContent_value e)
    (Popup.submitButton_disabled e) (Popup.submitButton_textContent e)
    (Popup.statusMessage_textContent e) (Popup.statusMessage_className e)
    (Popup.resultBox_hidden e) (Popup.resultBox_children e)
    v (Popup.sendToObsidian_checked e).

Definition set_sendToObsidian_checked (v : bool) (e : Popup.Elements)
  : Popup.Elements :=
  Popup.mkElements (Popup.memoContent_value e)
    (Popup.submitButton_disabled e) (Popup.submitButton_textContent e)
    (Popup.statusMessage_textContent e) (Popup.statusMessage_className e)
    (Popup.resultBox_hidden e) (Popup.resultBox_children e)
    (Popup.sendToFlomo_checked e) v.

Definition set_flomoUrlInput_value (v : jsstring) (i : Inputs) : Inputs :=
  mkInputs v (obsidianVaultInput_value i) (obsidianTokenInput_value i)
           (settingsPanel_hidden i).

Definition set_obsidianVaultInput_value (v : jsstring) (i : Inputs)
  : Inputs :=
  mkInputs (flomoUrlInput_value i) v (obsidianTokenInput_value i)
           (settingsPanel_hidden i).

Definition set_obsidianTokenInput_value (v : jsstring) (i : Inputs)
  : Inputs :=
  mkInputs (flomoUrlInput_value i) (obsidianVaultInput_value i) v
           (settingsPanel_hidden i).

Definition set_settingsPanel_hidden (v : bool) (i : Inputs) : Inputs :=
  mkInputs (flomoUrlInput_value i) (obsidianVaultInput_value i)
           (obsidianTokenInput_value i) v.

(** Reading and assigning a property of a settings field. *)
Definition read_input {A} (prop : Inputs -> A) : M Window A :=
  window <- get_heap ;; ret (prop (inputs window)).

Definition assign_input (setter : Inputs -> Inputs) : M Window unit :=
  modify_heap (fun window =>
    mkWindow (page window) (setter (inputs window)) (storage window)).

(** [state.config], read and assigned. *)
Definition state_config : M Window Popup.Config :=
  window <- get_heap ;; ret (Popup.config (Popup.state (page window))).

Definition assign_state_config (config : Popup.Config) : M Window unit :=
  modify_heap (fun window =>
    mkWindow
      (Popup.mkPage (Popup.elements (page window))
         (Popup.mkState config
            (Popup.flomoAPI (Popup.state (page window)))
            (Popup.obsidianAPI (Popup.state (page window)))))
      (inputs window) (storage window)).

(** [chrome.storage.local.get(['config'])]: a promise of [data.config]. *)
Definition chrome_storage_local_get
  : M Window (Promise (option Popup.Config)) :=
  window <- get_heap ;;
  match storage_fault (storage window) with
  | Some e => ret (Rejected e)
  | None => ret (Fulfilled (stored_config (storage window)))
  end.

(** [chrome.storage.local.set({ config: config })]. *)
Definition chrome_storage_local_set (config : Popup.Config)
  : M Window (Promise unit) :=
  window <- get_heap ;;
  match storage_fault (storage window) with
  | Some e => ret (Rejected e)
  | None =>
      modify_heap (fun window =>
        mkWindow (page window) (inputs window)
                 (mkStorage (Some config) None)) ;;
      ret (Fulfilled tt)
  end.

(** The object [{}]: every field reads as [undefined]. *)
Definition empty_config : Popup.Config :=
  Popup.mkConfig None None None None None.

(** [v || ''] on a string or [undefined]. *)
Definition or_empty (v : option jsstring) : jsstring :=
  if truthy_opt v then string_value v else [].

(** [v ?? d] on a boolean or [undefined]. *)
Definition or_default (v : option bool) (d : bool) : bool :=
  match v with
  | Some b => b
  | None => d
  end.

(** Loads configuration from chrome.storage.local, initializes API
    handlers, and updates the UI to reflect the loaded settings. *)
Definition loadConfigAndSetup : M Window unit :=
  try_catch (
    p <- chrome_storage_local_get ;;
    data <- await p ;;
    assign_state_config (match data with
                         | Some config => config
                         | None => empty_config
                         end) ;;
    (* Populate UI fields with loaded config values, providing defaults. *)
    config <- state_config ;;
    assign_input (set_flomoUrlInput_value
                    (or_empty (Popup.flomoUrl config))) ;;
    config <- state_config ;;
    assign_input (set_obsidianVaultInput_value
                    (or_empty (Popup.obsidianVault config))) ;;
    config <- state_config ;;
    assign_input (set_obsidianTokenInput_value
                    (or_empty (Popup.obsidianToken config))) ;;
    config <- state_config ;;
    lift (Popup.assign (set_sendToFlomo_checked
                          (or_default (Popup.sendToFlomo config) true))) ;;
    config <- state_config ;;
    lift (Popup.assign (set_sendToObsidian_checked
                          (or_default (Popup.sendToObsidian config) false))) ;;
    (* Initialize API handlers with loaded credentials. *)
    lift Popup.reinitializeApis ;;
    lift Popup.updateSubmitButtonState)
    (fun error =>
       (* console.error('Error loading configuration:', error) *)
       lift (Popup.updateStatus (lit "Error loading configuration.")
                                (lit "error"))).

(** Saves the current configuration from the UI input fields to
    chrome.storage.local and re-initializes the API handlers. *)
Definition saveConfig : M Window unit :=
  flomoUrl <- read_input flomoUrlInput_value ;;
  obsidianVault <- read_input obsidianVaultInput_value ;;
  obsidianToken <- read_input obsidianTokenInput_value ;;
  sendToFlomo <- lift (Popup.read Popup.sendToFlomo_checked) ;;
  sendToObsidian <- lift (Popup.read Popup.sendToObsidian_checked) ;;
  assign_state_config
    (Popup.mkConfig (Some (trim flomoUrl)) (Some (trim obsidianVault))
                    (Some (trim obsidianToken))
                    (Some sendToFlomo) (Some sendToObsidian)) ;;
  try_catch (
    config <- state_config ;;
    p <- chrome_storage_local_set config ;;
    await p ;;
    lift Popup.reinitializeApis ;;
    lift (Popup.updateStatus (lit "Settings saved!") (lit "success")))
    (fun error =>
       (* console.error('Error saving configuration:', error) *)
       lift (Popup.updateStatus (lit "Error saving settings.")
                                (lit "error"))).

(** Tests the connection to the Flomo API and displays the result in the
    status area. *)
Definition testFlomoConnection : M Window unit :=
  lift (Popup.updateStatus (lit "Testing Flomo connection...")
                           (lit "loading")) ;;
  (* Create a temporary API instance with the current input value to test
     before saving. *)
  value <- read_input flomoUrlInput_value ;;
  let tempApi := FlomoAPI.new (Some (trim value)) in
  p <- FlomoAPI.testConnection tempApi ;;
  result <- await p ;;
  lift (Popup.updateStatus (message result)
          (if success result then lit "success" else lit "error")).

(** Tests the connection to the Obsidian API and displays the result. *)
Definition testObsidianConnection : M Window unit :=
  lift (Popup.updateStatus (lit "Testing Obsidian connection...")
                           (lit "loading")) ;;
  vault <- read_input obsidianVaultInput_value ;;
  token <- read_input obsidianTokenInput_value ;;
  let tempApi :=
    ObsidianWriter.new (Some (trim vault)) (Some (trim token)) None in
  p <- ObsidianWriter.testConnection tempApi ;;
  result <- await p ;;
  lift (Popup.updateStatus (message result)
          (if success result then lit "success" else lit "error")).

(** The listeners [setupEventListeners] registers follow. *)

(** An [async] function called and not awaited: the caller goes on
    whatever the call's promise settles to, a rejection stays unhandled. *)
Definition detached {A} (m : M Window A) : M Window unit :=
  fun env w =>
    match m env w with
    | (_, w') => (Normal tt, w')
    end.

(** The [click] listener of the submit button. *)
Definition submitButton_click : M Window unit :=
  detached (lift Popup.submitNote).

(** The [keydown] listener of the note input: Ctrl+Enter submits. *)
Definition memoContent_keydown (ctrlKey : bool) (key : jsstring)
  : M Window bool :=
  if ctrlKey && eqb key (lit "Enter") then
    (* e.preventDefault(): prevent new line in textarea *)
    detached (lift Popup.submitNote) ;;
    ret true
  else ret false.

End Settings.

(* ================================================================== *)
(** ** More observations *)
(* ================================================================== *)

(** A vault name that is [undefined] or holds nothing but white space. *)
Definition blank (v : option jsstring) : bool :=
  match v with
  | None => true
  | Some s => forallb is_white_space s
  end.

(** The failure both Obsidian operations give when a setting is missing. *)
Definition obsidian_not_set : Outcome :=
  mkOutcome false (lit "Obsidian Vault Name or API Token is not set.").

(** The note [FlomoAPI.testConnection] sends, [stamp] being the locale
    rendering of the time of the test. *)
Definition test_note (stamp : jsstring) : jsstring :=
  lit "#flomo-obsidian-extension" ++ LF
  ++ lit "This is a test message from the Flomo & Obsidian Quick Memo extension."
  ++ LF ++ stamp.

(** What a Flomo send hands to [fetch]: its one request, if the URL is
    set. *)
Definition flomo_sent (fa : FlomoAPI.t) (content : jsstring)
  : list Request :=
  if truthy_opt (FlomoAPI.api_url fa)
  then [webhook_request (string_value (FlomoAPI.api_url fa)) content]
  else [].

(** The events of a Flomo send: the call, then what it hands to [fetch]. *)
Definition flomo_events (fa : FlomoAPI.t) (content : jsstring)
  : list Event :=
  EvCall (FlomoAPI_sendToFlomo content)
  :: map EvFetch (flomo_sent fa content).

(** The same for an Obsidian send entered after the history [tr]. *)
Definition obsidian_sent (oa : ObsidianWriter.t) (content : jsstring)
  (env : Env) (tr : list Event) : list Request :=
  if configured oa
  then [notes_request (ObsidianWriter.apiUrl oa)
          (string_value (ObsidianWriter.apiToken oa))
          (ObsidianWriter.vaultName oa)
          (ObsidianWriter.generateFileName_at
             (clock env
                (tr ++ [EvCall (ObsidianWriter_sendToObsidian content)])))
          content]
  else [].

Definition obsidian_events (oa : ObsidianWriter.t) (content : jsstring)
  (env : Env) (tr : list Event) : list Event :=
  EvCall (ObsidianWriter_sendToObsidian content)
  :: map EvFetch (obsidian_sent oa content env tr).

(** The requests of one submission, Flomo's first. *)
Definition submission_sent (fa : FlomoAPI.t) (oa : ObsidianWriter.t)
  (content : jsstring) (toFlomo toObsidian : bool) (env : Env)
  (tr : list Event) : list Request :=
  (if toFlomo then flomo_sent fa content else [])
  ++ (if toObsidian
      then obsidian_sent oa content env
             (tr ++ (if toFlomo then flomo_events fa content else []))
      else []).

(** The elements once [updateStatus(text, type)] has run. *)
Definition with_status (text type : jsstring) (els : Popup.Elements)
  : Popup.Elements :=
  Popup.mkElements
    (Popup.memoContent_value els) (Popup.submitButton_disabled els)
    (Popup.submitButton_textContent els)
    text (lit "status-message " ++ type) true
    (Popup.resultBox_children els)
    (Popup.sendToFlomo_checked els) (Popup.sendToObsidian_checked els).

(** The configuration [saveConfig] reads off the settings fields and the
    checkboxes. *)
Definition typed_config (i : Settings.Inputs) (els : Popup.Elements)
  : Popup.Config :=
  Popup.mkConfig
    (Some (trim (Settings.flomoUrlInput_value i)))
    (Some (trim (Settings.obsidianVaultInput_value i)))
    (Some (trim (Settings.obsidianTokenInput_value i)))
    (Some (Popup.sendToFlomo_checked els))
    (Some (Popup.sendToObsidian_checked els)).

(** The application state [reinitializeApis] leaves for a configuration. *)
Definition initialised (config : Popup.Config) : Popup.State :=
  Popup.mkState config
    (Some (FlomoAPI.new (Popup.flomoUrl config)))
    (Some (ObsidianWriter.new (Popup.obsidianVault config)
                              (Popup.obsidianToken config) None)).

(** The user typing [value] into the note input (not code of the
    extension: an edit of the page between two of its handlers). *)
Definition typing (value : jsstring) (w : World Settings.Window)
  : World Settings.Window :=
  mkWorld (trace w)
    (Settings.mkWindow
       (Popup.mkPage
          (Popup.set_memoContent_value value
             (Popup.elements (Settings.page (heap w))))
          (Popup.state (Settings.page (heap w))))
       (Settings.inputs (heap w)) (Settings.storage (heap w))).

Module SampleSettings.

Definition inputs : Settings.Inputs :=
  Settings.mkInputs (lit " https://flomoapp.com/iwh/abc/def/ ")
                    (lit "Notes ") (lit " secret") true.

(** A popup with settings typed in, nothing stored yet and no handlers. *)
Definition fresh (store : Settings.Storage) : World Settings.Window :=
  mkWorld []
    (Settings.mkWindow
       (Popup.mkPage (Sample.elements [] true true)
                     (Popup.mkState Settings.empty_config None None))
       inputs store).

Definition empty_store : Settings.Storage := Settings.mkStorage None None.

Definition failing_store : Settings.Storage :=
  Settings.mkStorage None (Some (mkError (lit "QUOTA_BYTES quota exceeded"))).

(** The same popup opened again, its fields empty, on the given storage. *)
Definition reopened (store : Settings.Storage) : World Settings.Window :=
  mkWorld []
    (Settings.mkWindow
       (Popup.mkPage (Sample.elements [] false false)
                     (Popup.mkState Settings.empty_config None None))
       (Settings.mkInputs [] [] [] true) store).

(** A popup whose handlers are installed and whose URL field has since been
    changed, on a storage that fails. *)
Definition stale : World Settings.Window :=
  mkWorld []
    (Settings.mkWindow
       (Popup.mkPage (Sample.elements [] true false)
                     (Popup.mkState Sample.config (Some Sample.flomo)
                                    (Some Sample.obsidian)))
       (Settings.mkInputs (lit "https://example.org/other") (lit "Notes")
                          (lit "secret") false)
       failing_store).

(** A popup with a note typed while its submit button is disabled. *)
Definition busy : World Settings.Window :=
  mkWorld []
    (Settings.mkWindow
       (Popup.mkPage
          (Popup.set_submitButton_disabled true
             (Sample.elements (lit "hello") true false))
          (Popup.mkState Sample.config (Some Sample.flomo)
                         (Some Sample.obsidian)))
       inputs empty_store).

End SampleSettings.

(** The page of the submission flow inside a popup, as [lift] hands it to
    [submitNote]. *)
Definition page_world (w : World Settings.Window) : World Popup.Page :=
  mkWorld (trace w) (Settings.page (heap w)).

(** The page of a popup whose configuration could not be loaded, with a
    note typed since; both destinations are checked. *)
Definition failed_load_page : World Popup.Page :=
  page_world
    (typing (lit "hello")
       (snd (Settings.loadConfigAndSetup Sample.env
               (SampleSettings.fresh SampleSettings.failing_store)))).

(** Both API handlers are in place. *)
Definition ready (w : World Settings.Window) : Prop :=
  Popup.flomoAPI (Popup.state (Settings.page (heap w))) <> None
  /\ Popup.obsidianAPI (Popup.state (Settings.page (heap w))) <> None.

(* ================================================================== *)
(** ** Properties *)
(* ================================================================== *)

Lemma calls_app (a b : list Event) : calls (a ++ b) = calls a ++ calls b.
Proof. unfold calls. apply flat_map_app. Qed.

Lemma requests_app (a b : list Event) :
  requests (a ++ b) = requests a ++ requests b.
Proof. unfold requests. apply flat_map_app. Qed.

(** Closes a goal [exists o sent, sent = _ /\ forall H w, trace w = tr -> _]
    once every answer of the environment has been named: the outcome and
    the requests are read off the run. *)
Ltac settle_from_history :=
  eexists _, _; (split; [reflexivity |]);
  let H := fresh "H" in
  let t := fresh "t" in
  let h := fresh "h" in
  let Htr := fresh "Htr" in
  intros H [t h] Htr; cbn in Htr; subst t; cbn.

(** Unfolds the popup's functions down to the monad's operations. *)
Ltac unfold_popup :=
  unfold Popup.submitNote, Popup.updateStatus, Popup.showResult,
    Popup.updateSubmitButtonState, Popup.read, Popup.assign, modify_heap,
    get_heap, bind, ret.

(** *** The Flomo client, run from any world *)

(** From a given history, a send settles to one outcome and leaves one
    list of events, whatever else the caller's world holds. *)
Lemma sendToFlomo_run (this : FlomoAPI.t) (content : jsstring) (env : Env)
  (tr : list Event) :
  exists (o : Outcome) (sent : list Request),
    sent = (if truthy_opt (FlomoAPI.api_url this)
            then [webhook_request (string_value (FlomoAPI.api_url this))
                                  content]
            else [])
    /\ forall (H : Type) (w : World H), trace w = tr ->
         FlomoAPI.sendToFlomo this content env w
         = (Normal (Fulfilled o),
            mkWorld (tr ++ EvCall (FlomoAPI_sendToFlomo content)
                        :: map EvFetch sent) (heap w)).
Proof.
  unfold FlomoAPI.sendToFlomo, async, try_catch, bind, fetch, await,
    interpolate.
  destruct (truthy_opt (FlomoAPI.api_url this)) eqn:Eurl; cbn.
  - fold (webhook_request (string_value (FlomoAPI.api_url this)) content).
    set (req := webhook_request _ _).
    destruct (network env (tr ++ [EvCall (FlomoAPI_sendToFlomo content)]) req)
      as [response | e] eqn:Enet;
      [destruct (ok response) eqn:Eok;
       [| destruct (json response) as [data | e] eqn:Ejson;
          [destruct (Json_truthy data) eqn:Etruthy;
           [destruct (to_string (get_prop data (lit "message")))
              as [detail |] eqn:Edetail |] |]] |].
    all: settle_from_history.
    all: rewrite Enet; cbn; rewrite ?Eok; cbn; rewrite ?Ejson; cbn;
      rewrite ?Etruthy; cbn; rewrite ?Edetail; cbn.
    all: rewrite <- app_assoc; reflexivity.
  - settle_from_history. reflexivity.
Qed.

(** *** The Obsidian client, run from any world *)

Lemma generateFileName_run (H : Type) (this : ObsidianWriter.t) (env : Env)
  (w : World H) :
  ObsidianWriter.generateFileName this env w
  = (Normal (ObsidianWriter.generateFileName_at (clock env (trace w))), w).
Proof. reflexivity. Qed.

Lemma sendToObsidian_run (this : ObsidianWriter.t) (content : jsstring)
  (env : Env) (tr : list Event) :
  exists (o : Outcome) (sent : list Request),
    sent = (if configured this
            then [notes_request
                    (ObsidianWriter.apiUrl this)
                    (string_value (ObsidianWriter.apiToken this))
                    (ObsidianWriter.vaultName this)
                    (ObsidianWriter.generateFileName_at
                       (clock env
                          (tr ++ [EvCall
                                    (ObsidianWriter_sendToObsidian content)])))
                    content]
            else [])
    /\ forall (H : Type) (w : World H), trace w = tr ->
         ObsidianWriter.sendToObsidian this content env w
         = (Normal (Fulfilled o),
            mkWorld (tr ++ EvCall (ObsidianWriter_sendToObsidian content)
                        :: map EvFetch sent) (heap w)).
Proof.
  unfold ObsidianWriter.sendToObsidian, ObsidianWriter.generateFileName,
    async, try_catch, bind, fetch, await, new_Date, configured.
  destruct (truthy (ObsidianWriter.vaultName this)) eqn:Evault;
    [destruct (truthy_opt (ObsidianWriter.apiToken this)) eqn:Etoken |]; cbn.
  - match goal with
    | |- context [notes_request ?a ?b ?c ?d ?e] =>
        pose (req := notes_request a b c d e)
    end.
    destruct (network env
                (tr ++ [EvCall (ObsidianWriter_sendToObsidian content)]) req)
      as [response | e] eqn:Enet;
      [destruct (ok response) eqn:Eok;
       [| destruct (text response) as [errorText | e] eqn:Etext] |].
    all: unfold req, notes_request in Enet; clear req.
    all: settle_from_history.
    all: rewrite Enet; cbn; rewrite ?Eok; cbn; rewrite ?Etext; cbn.
    all: rewrite <- app_assoc; reflexivity.
  - settle_from_history. reflexivity.
  - settle_from_history. reflexivity.
Qed.


Lemma Obsidian_testConnection_run (this : ObsidianWriter.t) (env : Env)
  (tr : list Event) :
  exists (o : Outcome) (sent : list Request),
    sent = (if configured this
            then [probe_request
                    (ObsidianWriter.apiUrl this)
                    (string_value (ObsidianWriter.apiToken this))]
            else [])
    /\ forall (H : Type) (w : World H), trace w = tr ->
         ObsidianWriter.testConnection this env w
         = (Normal (Fulfilled o),
            mkWorld (tr ++ EvCall ObsidianWriter_testConnection
                        :: map EvFetch sent) (heap w)).
Proof.
  unfold ObsidianWriter.testConnection, async, try_catch, bind, fetch,
    await, configured.
  destruct (truthy (ObsidianWriter.vaultName this)) eqn:Evault;
    [destruct (truthy_opt (ObsidianWriter.apiToken this)) eqn:Etoken |]; cbn.
  - match goal with
    | |- context [probe_request ?a ?b] => pose (req := probe_request a b)
    end.
    destruct (network env (tr ++ [EvCall ObsidianWriter_testConnection]) req)
      as [response | e] eqn:Enet;
      [destruct (ok response) eqn:Eok |].
    all: unfold req, probe_request in Enet; clear req.
    all: settle_from_history.
    all: rewrite Enet; cbn; rewrite ?Eok; cbn.
    all: rewrite <- app_assoc; reflexivity.
  - settle_from_history. reflexivity.
  - settle_from_history. reflexivity.
Qed.

(** *** The popup's dispatch, run from any page *)

Lemma Promise_all_fulfilled (A : Type) (l : list A) :
  Promise_all (map (@Fulfilled A) l) = Fulfilled l.
Proof.
  induction l as [| a l IH]; cbn; [reflexivity |]. now rewrite IH.
Qed.

Lemma submissionPromises_run (content : jsstring) (toFlomo toObsidian : bool)
  (env : Env) (tr : list Event) (fa : FlomoAPI.t) (oa : ObsidianWriter.t) :
  exists (o1 o2 : Outcome) (ev1 ev2 : list Event),
    calls ev1 = [FlomoAPI_sendToFlomo content]
    /\ calls ev2 = [ObsidianWriter_sendToObsidian content]
    /\ (forall (H : Type) (w : World H), trace w = tr ->
          FlomoAPI.sendToFlomo fa content env w
          = (Normal (Fulfilled o1), mkWorld (tr ++ ev1) (heap w)))
    /\ (forall (H : Type) (w : World H),
          trace w = tr ++ (if toFlomo then ev1 else []) ->
          ObsidianWriter.sendToObsidian oa content env w
          = (Normal (Fulfilled o2), mkWorld (trace w ++ ev2) (heap w)))
    /\ forall w : World Popup.Page,
         trace w = tr ->
         Popup.flomoAPI (Popup.state (heap w)) = Some fa ->
         Popup.obsidianAPI (Popup.state (heap w)) = Some oa ->
         Popup.submissionPromises content toFlomo toObsidian env w
         = (Normal (map (@Fulfilled Outcome)
                        (selected toFlomo toObsidian o1 o2)),
            mkWorld (tr ++ List.concat (selected toFlomo toObsidian ev1 ev2))
                    (heap w)).
Proof.
  destruct (sendToFlomo_run fa content env tr) as (o1 & sent1 & _ & Hf).
  set (ev1 := EvCall (FlomoAPI_sendToFlomo content) :: map EvFetch sent1) in *.
  destruct (sendToObsidian_run oa content env
              (tr ++ (if toFlomo then ev1 else [])))
    as (o2 & sent2 & _ & Ho).
  set (ev2 := EvCall (ObsidianWriter_sendToObsidian content)
              :: map EvFetch sent2) in *.
  assert (Hcalls : forall c l, calls (EvCall c :: map EvFetch l) = [c]).
  { intros c l. cbn. induction l as [| r l IH]; cbn; [reflexivity | exact IH]. }
  exists o1, o2, ev1, ev2.
  split; [apply Hcalls |]. split; [apply Hcalls |].
  split; [exact Hf |].
  split.
  { intros H w Hw. rewrite (Ho H w Hw), Hw. reflexivity. }
  intros [t [els st]] Htr Hfa Hoa. cbn in Htr, Hfa, Hoa. subst t.
  unfold Popup.submissionPromises, Popup.state_flomoAPI,
    Popup.state_obsidianAPI, bind, get_heap, ret, selected.
  pose proof (Hf _ (mkWorld tr (Popup.mkPage els st)) eq_refl) as E1.
  destruct toFlomo, toObsidian; cbv beta iota;
    cbn [trace heap Popup.state app List.concat map] in *;
    rewrite ?Hfa, ?Hoa; cbv beta iota.
  - rewrite E1.
    pose proof (Ho _ (mkWorld (tr ++ ev1) (Popup.mkPage els st)) eq_refl)
      as E2.
    cbn [trace heap Popup.state] in *. rewrite Hoa. cbv beta iota.
    rewrite E2. rewrite !app_nil_r, <- app_assoc. reflexivity.
  - rewrite E1. rewrite !app_nil_r. reflexivity.
  - pose proof (Ho _ (mkWorld tr (Popup.mkPage els st))
                  (eq_sym (app_nil_r tr))) as E2.
    cbn [trace heap] in E2. rewrite E2. rewrite !app_nil_r. reflexivity.
  - rewrite !app_nil_r. reflexivity.
Qed.

Lemma trim_truthy_nonempty (v : jsstring) :
  truthy (trim v) = true -> v <> [].
Proof. intros Hv ->. vm_compute in Hv. discriminate. Qed.

(** [submitNote] from its dispatch on: whatever outcomes the started sends
    settle to, they are merged into the page as [after_submission] says. *)
Lemma submitNote_merge (env : Env) (w : World Popup.Page)
  (outcomes : list Outcome) (evs : list Event) :
  let els := Popup.elements (heap w) in
  truthy (trim (Popup.memoContent_value els)) = true ->
  Popup.sendToFlomo_checked els || Popup.sendToObsidian_checked els = true ->
  (forall w0 : World Popup.Page,
      trace w0 = trace w ->
      Popup.state (heap w0) = Popup.state (heap w) ->
      Popup.submissionPromises
        (trim (Popup.memoContent_value els))
        (Popup.sendToFlomo_checked els) (Popup.sendToObsidian_checked els)
        env w0
      = (Normal (map (@Fulfilled Outcome) outcomes),
         mkWorld (trace w ++ evs) (heap w0))) ->
  Popup.submitNote env w
  = (Normal tt,
     mkWorld (trace w ++ evs)
       (Popup.mkPage (after_submission els outcomes)
                     (Popup.state (heap w)))).
Proof.
  intros els Hcontent Hdest Hps.
  destruct w as [tr [e st]]. destruct e as [v dis txt smt smc rh rc tf to].
  cbn in *. subst els. cbn in *.
  unfold_popup. cbn. rewrite Hcontent. cbn.
  assert (Hsel : negb tf && negb to = false) by (destruct tf, to; easy).
  rewrite Hsel.
  match goal with
  | |- context [Popup.submissionPromises _ _ _ env ?w0] =>
      pose proof (Hps w0 eq_refl eq_refl) as E
  end.
  rewrite E. cbn [heap trace]. rewrite Promise_all_fulfilled.
  unfold after_submission, result_blocks, submit_label, await, ret.
  cbv beta iota.
  fold (successMessages outcomes). fold (errorMessages outcomes).
  destruct (successMessages outcomes), (errorMessages outcomes);
    cbn; rewrite ?Hsel; reflexivity.
Qed.


Lemma submitNote_run (env : Env) (w : World Popup.Page) (fa : FlomoAPI.t)
  (oa : ObsidianWriter.t) (outcomes : list Outcome) (evs : list Event) :
  started w fa oa ->
  let els := Popup.elements (heap w) in
  (forall w0 : World Popup.Page,
      trace w0 = trace w ->
      Popup.state (heap w0) = Popup.state (heap w) ->
      Popup.submissionPromises
        (trim (Popup.memoContent_value els))
        (Popup.sendToFlomo_checked els) (Popup.sendToObsidian_checked els)
        env w0
      = (Normal (map (@Fulfilled Outcome) outcomes),
         mkWorld (trace w ++ evs) (heap w0))) ->
  Popup.submitNote env w
  = (Normal tt,
     mkWorld (trace w ++ evs)
       (Popup.mkPage (after_submission els outcomes)
                     (Popup.state (heap w)))).
Proof.
  intros Hstarted els Hps.
  apply submitNote_merge; [apply Hstarted | apply Hstarted | exact Hps].
Qed.

(** [submitNote] on a page whose handlers are still [null]. *)
Lemma submitNote_null_run (env : Env)
  (w : World Popup.Page) :
  let els := Popup.elements (heap w) in
  let toFlomo := Popup.sendToFlomo_checked els in
  let toObsidian := Popup.sendToObsidian_checked els in
  truthy (trim (Popup.memoContent_value els)) = true ->
  toFlomo || toObsidian = true ->
  Popup.flomoAPI (Popup.state (heap w)) = None ->
  Popup.obsidianAPI (Popup.state (heap w)) = None ->
  Popup.submitNote env w
  = (Throw (Popup.TypeError_null
              (if toFlomo then "sendToFlomo" else "sendToObsidian")),
     mkWorld (trace w)
       (Popup.mkPage
          (Popup.mkElements
             (Popup.memoContent_value els)
             true
             (Popup.submitButton_textContent els)
             (lit "Submitting...")
             (lit "status-message " ++ lit "loading")
             true
             (Popup.resultBox_children els)
             toFlomo toObsidian)
          (Popup.state (heap w)))).
Proof.
  destruct w as [tr [e st]]. destruct e as [v dis txt smt smc rh rc tf to].
  cbn. intros Hcontent Hdest Hfa Hoa.
  unfold_popup. cbn. rewrite Hcontent. cbn.
  assert (Hsel : negb tf && negb to = false) by (destruct tf, to; easy).
  rewrite Hsel.
  unfold Popup.submissionPromises, Popup.state_flomoAPI,
    Popup.state_obsidianAPI, bind, get_heap, ret, throw.
  destruct tf, to; try discriminate; cbn; rewrite ?Hfa, ?Hoa; reflexivity.
Qed.


(** *** The generated file name *)

Lemma eqb_eq (a b : jsstring) : eqb a b = true -> a = b.
Proof.
  revert b. induction a as [| x a IH]; intros [| y b] Hab; cbn in Hab;
    try discriminate; [reflexivity |].
  apply andb_true_iff in Hab. destruct Hab as [Hxy Hrest].
  apply N.eqb_eq in Hxy. now rewrite Hxy, (IH b Hrest).
Qed.

Lemma bounded_check (P : nat -> bool) (lo len : nat) :
  forallb P (seq lo len) = true ->
  forall n, lo <= n < lo + len -> P n = true.
Proof.
  intros Hall n Hn. rewrite forallb_forall in Hall.
  apply Hall. apply in_seq. exact Hn.
Qed.

(** Below 100, padding the decimal rendering to two places gives the two
    decimal digits. *)
Lemma padStart_two_digits (n : nat) :
  n < 100 -> padStart (String_of_nat n) 2 (lit "0") = two_digits n.
Proof.
  intros Hn. apply eqb_eq.
  apply (@bounded_check
           (fun n => eqb (padStart (String_of_nat n) 2 (lit "0"))
                         (two_digits n)) 0 100).
  - vm_compute. reflexivity.
  - lia.
Qed.

Lemma all_from_spec (P : Z -> bool) (count : nat) :
  forall start : Z,
    all_from P start count = true ->
    forall z, (start <= z < start + Z.of_nat count)%Z -> P z = true.
Proof.
  induction count as [| count IH]; intros start Hall z Hz; [lia |].
  cbn [all_from] in Hall. apply andb_true_iff in Hall.
  destruct Hall as [Hhere Hrest].
  destruct (Z.eq_dec z start) as [-> | Hne]; [exact Hhere |].
  apply (IH (Z.succ start) Hrest). lia.
Qed.

(** A year of four digits prints as those four digits. *)
Lemma String_of_year (y : Z) :
  (1000 <= y <= 9999)%Z -> String_of_Z y = four_digits y.
Proof.
  intros Hy. apply eqb_eq.
  apply (@all_from_spec (fun z => eqb (String_of_Z z) (four_digits z))
           (9 * 1000) 1000%Z).
  - vm_compute. reflexivity.
  - lia.
Qed.

Lemma generateFileName_at_fields (d : Date) :
  clock_fields d ->
  ObsidianWriter.generateFileName_at d
  = String_of_Z (getFullYear d) ++ MM_DD_HH_mm_ss_md d.
Proof.
  intros (Hmo & Hd & Hh & Hmi & Hs).
  unfold ObsidianWriter.generateFileName_at, MM_DD_HH_mm_ss_md.
  rewrite !padStart_two_digits by lia.
  reflexivity.
Qed.

Lemma generateFileName_at_format (d : Date) :
  wall_clock d -> ObsidianWriter.generateFileName_at d = timestamp_name d.
Proof.
  intros (Hy & Hfields).
  rewrite (generateFileName_at_fields Hfields), (String_of_year Hy).
  reflexivity.
Qed.

Lemma generateFileName_at_same_second (d1 d2 : Date) :
  same_second d1 d2 ->
  ObsidianWriter.generateFileName_at d1
  = ObsidianWriter.generateFileName_at d2.
Proof.
  intros (Hy & Hmo & Hd & Hh & Hmi & Hs).
  unfold ObsidianWriter.generateFileName_at.
  now rewrite Hy, Hmo, Hd, Hh, Hmi, Hs.
Qed.

(** *** The API handlers *)

(** [reinitializeApis] puts both handlers in place, built from the saved
    configuration; it touches neither the trace nor the DOM. *)
Lemma reinitializeApis_run (env : Env) (w : World Popup.Page) :
  let config := Popup.config (Popup.state (heap w)) in
  Popup.reinitializeApis env w
  = (Normal tt,
     mkWorld (trace w)
       (Popup.mkPage (Popup.elements (heap w))
          (Popup.mkState config
             (Some (FlomoAPI.new (Popup.flomoUrl config)))
             (Some (ObsidianWriter.new (Popup.obsidianVault config)
                                       (Popup.obsidianToken config)
                                       None))))).
Proof. reflexivity. Qed.

(** Once the handlers are in place, a page with something typed and a
    destination checked is one whose submission starts. *)
Lemma started_after_reinitializeApis (env : Env) (w : World Popup.Page) :
  let w' := snd (Popup.reinitializeApis env w) in
  let els := Popup.elements (heap w) in
  truthy (trim (Popup.memoContent_value els)) = true ->
  Popup.sendToFlomo_checked els || Popup.sendToObsidian_checked els = true ->
  exists fa oa, started w' fa oa.
Proof.
  intros w' els Hcontent Hdest. subst w'. rewrite reinitializeApis_run.
  eexists _, _. constructor; cbn; [exact Hcontent | exact Hdest | |];
    reflexivity.
Qed.

(** *** Claims *)

(** C1. A submission that passes validation (trimmed content non-empty, at
    least one destination checked) invokes each selected client once, and
    no other, on a page whose API handlers are in place: it completes, and
    the client methods it enters are exactly [sendToFlomo] with the trimmed
    content if the Flomo box is checked, then [sendToObsidian] with the
    trimmed content if the Obsidian box is checked. On a page whose handlers
    are still [null], as they are until the configuration has been loaded
    and remain when loading fails, the same submission throws at its first
    selected destination: no client method is entered, whatever is
    selected, and the submit button is left disabled. *)
Theorem submitNote_invokes_selected_clients_unless_handlers_are_null
  (env : Env) (w : World Popup.Page) :
  let els := Popup.elements (heap w) in
  let content := trim (Popup.memoContent_value els) in
  let toFlomo := Popup.sendToFlomo_checked els in
  let toObsidian := Popup.sendToObsidian_checked els in
  truthy content = true ->
  toFlomo || toObsidian = true ->
  (forall (fa : FlomoAPI.t) (oa : ObsidianWriter.t),
      Popup.flomoAPI (Popup.state (heap w)) = Some fa ->
      Popup.obsidianAPI (Popup.state (heap w)) = Some oa ->
      exists (w' : World Popup.Page) (evs : list Event),
        Popup.submitNote env w = (Normal tt, w')
        /\ trace w' = trace w ++ evs
        /\ calls evs = selected toFlomo toObsidian
                         (FlomoAPI_sendToFlomo content)
                         (ObsidianWriter_sendToObsidian content)
        /\ count_calls is_sendToFlomo evs = (if toFlomo then 1 else 0)
        /\ count_calls is_sendToObsidian evs = (if toObsidian then 1 else 0))
  /\ (Popup.flomoAPI (Popup.state (heap w)) = None ->
      Popup.obsidianAPI (Popup.state (heap w)) = None ->
      exists (w' : World Popup.Page),
        Popup.submitNote env w
        = (Throw (Popup.TypeError_null
                    (if toFlomo then "sendToFlomo" else "sendToObsidian")),
           w')
        /\ trace w' = trace w
        /\ Popup.submitButton_disabled (Popup.elements (heap w')) = true).
Proof.
  intros els content toFlomo toObsidian Hcontent Hdest. split.
  - intros fa oa Hfa Hoa.
    pose proof (@mkStarted w fa oa Hcontent Hdest Hfa Hoa) as Hstarted.
    destruct (submissionPromises_run content toFlomo toObsidian env (trace w)
                fa oa) as (o1 & o2 & ev1 & ev2 & Hc1 & Hc2 & _ & _ & Hps).
    eexists _, (List.concat (selected toFlomo toObsidian ev1 ev2)).
    split.
    { apply (@submitNote_run env w fa oa (selected toFlomo toObsidian o1 o2)
               (List.concat (selected toFlomo toObsidian ev1 ev2)) Hstarted).
      intros w0 Htr Hst. apply Hps; [exact Htr | |]; rewrite Hst;
        assumption. }
    split; [reflexivity |].
    assert (Hcalls : calls (List.concat (selected toFlomo toObsidian ev1 ev2))
                     = selected toFlomo toObsidian
                         (FlomoAPI_sendToFlomo content)
                         (ObsidianWriter_sendToObsidian content)).
    { unfold selected. destruct toFlomo, toObsidian; cbn [app List.concat];
        rewrite ?calls_app, ?app_nil_r, ?Hc1, ?Hc2; reflexivity. }
    split; [exact Hcalls |].
    unfold count_calls. rewrite Hcalls. unfold selected.
    destruct toFlomo, toObsidian; split; reflexivity.
  - intros Hfa Hoa. eexists. split; [| split].
    + exact (submitNote_null_run env w Hcontent Hdest Hfa Hoa).
    + reflexivity.
    + reflexivity.
Qed.

Lemma submitNote_invokes_selected_clients_unless_handlers_are_null_witness :
  Popup.sendToFlomo_checked (Popup.elements (heap failed_load_page)) = true
  /\ exists (w' : World Popup.Page),
       Popup.submitNote Sample.env failed_load_page
       = (Throw (Popup.TypeError_null "sendToFlomo"), w')
       /\ count_calls is_sendToFlomo (trace w') = 0
       /\ Popup.submitButton_disabled (Popup.elements (heap w')) = true.
Proof.
  split; [reflexivity |].
  destruct (proj2 (submitNote_invokes_selected_clients_unless_handlers_are_null
                     Sample.env failed_load_page eq_refl eq_refl)
              eq_refl eq_refl) as (w' & Hrun & Htr & Hdis).
  exists w'. split; [exact Hrun |]. split; [| exact Hdis].
  rewrite Htr. reflexivity.
Defined.

(** C2. In a submission that passes validation, let [outcomes] be what the
    selected destinations' sends settled to. Once they are merged, the note
    input is empty if and only if no outcome is a failure; if some outcome
    is a failure the input holds exactly what it held before the
    submission (not even trimmed). *)
Theorem submitNote_clears_input_iff_no_failure (env : Env)
  (w : World Popup.Page) (fa : FlomoAPI.t) (oa : ObsidianWriter.t) :
  started w fa oa ->
  let els := Popup.elements (heap w) in
  let content := trim (Popup.memoContent_value els) in
  let toFlomo := Popup.sendToFlomo_checked els in
  let toObsidian := Popup.sendToObsidian_checked els in
  exists (outcomes : list Outcome) (w1 w' : World Popup.Page),
    Popup.submissionPromises content toFlomo toObsidian env w
    = (Normal (map (@Fulfilled Outcome) outcomes), w1)
    /\ Popup.submitNote env w = (Normal tt, w')
    /\ (Popup.memoContent_value (Popup.elements (heap w')) = []
        <-> errorMessages outcomes = [])
    /\ (errorMessages outcomes <> [] ->
        Popup.memoContent_value (Popup.elements (heap w'))
        = Popup.memoContent_value els).
Proof.
  intros Hstarted els content toFlomo toObsidian.
  destruct (submissionPromises_run content toFlomo toObsidian env (trace w)
              fa oa) as (o1 & o2 & ev1 & ev2 & _ & _ & _ & _ & Hps).
  exists (selected toFlomo toObsidian o1 o2). eexists _, _.
  split.
  { apply Hps; [reflexivity | |]; apply Hstarted. }
  split.
  { apply (@submitNote_run env w fa oa (selected toFlomo toObsidian o1 o2)
             (List.concat (selected toFlomo toObsidian ev1 ev2)) Hstarted).
    intros w0 Htr Hst. apply Hps; [exact Htr | |]; rewrite Hst;
      apply Hstarted. }
  cbn [heap Popup.elements after_submission Popup.memoContent_value].
  pose proof (trim_truthy_nonempty (started_content Hstarted)) as Hvalue.
  fold els in Hvalue.
  destruct (errorMessages (selected toFlomo toObsidian o1 o2)) as [| m ms].
  - split; [tauto | congruence].
  - split; [| reflexivity]. split; [contradiction | discriminate].
Qed.

Lemma submitNote_clears_input_iff_no_failure_witness :
  exists (outcomes : list Outcome) (w1 w' : World Popup.Page),
    Popup.submissionPromises (trim (lit " hello world ")) true true Sample.env
      (Sample.world (lit " hello world ") true true)
    = (Normal (map (@Fulfilled Outcome) outcomes), w1)
    /\ Popup.submitNote Sample.env (Sample.world (lit " hello world ") true true)
       = (Normal tt, w')
    /\ (Popup.memoContent_value (Popup.elements (heap w')) = []
        <-> errorMessages outcomes = [])
    /\ (errorMessages outcomes <> [] ->
        Popup.memoContent_value (Popup.elements (heap w'))
        = lit " hello world ").
Proof.
  exact (submitNote_clears_input_iff_no_failure Sample.env
           (@mkStarted (Sample.world (lit " hello world ") true true)
                       Sample.flomo Sample.obsidian
                       eq_refl eq_refl eq_refl eq_refl)).
Defined.



(** C4. What a Flomo send reports when the webhook answers with a
    non-success status. The client reads the body as JSON. If that fails,
    or yields a falsy value ([null], [false], [0], the empty string), the
    send settles to the failure "Failed to send to Flomo. HTTP Error:
    <status>"; if it yields an object whose [message] member is a string,
    to "Failed to send to Flomo. <that string>". These are the two details
    the specification names, and the code gives others. A truthy parsed value
    without a [message] member (an object that has none, an array, a
    string, a number, [true]) gives the detail "undefined", which is
    neither the body's message nor the status. And when the [message]
    member is an object with a member named [toString], interpolating it
    throws, so the send settles to "Network or other error: Cannot convert
    object to primitive value", with no detail at all. *)
Theorem sendToFlomo_detail_of_a_refused_note (H : Type) (this : FlomoAPI.t)
  (content : jsstring) (env : Env) (w : World H) (response : Response) :
  truthy_opt (FlomoAPI.api_url this) = true ->
  network env (trace w ++ [EvCall (FlomoAPI_sendToFlomo content)])
          (webhook_request (string_value (FlomoAPI.api_url this)) content)
  = Fulfilled response ->
  ok response = false ->
  let result := fst (FlomoAPI.sendToFlomo this content env w) in
  let failed (detail : jsstring) :=
    Normal (Fulfilled
              (mkOutcome false (lit "Failed to send to Flomo. " ++ detail))) in
  let status_detail :=
    lit "HTTP Error: " ++ String_of_nat (status response) in
  (forall e, json response = Rejected e -> result = failed status_detail)
  /\ (forall data, json response = Fulfilled data ->
        Json_truthy data = false -> result = failed status_detail)
  /\ (forall props s, json response = Fulfilled (JObject props) ->
        lookup (lit "message") props = Some (JString s) ->
        result = failed s)
  /\ (forall data, json response = Fulfilled data ->
        Json_truthy data = true ->
        get_prop data (lit "message") = None ->
        result = failed (lit "undefined"))
  /\ (forall props members, json response = Fulfilled (JObject props) ->
        lookup (lit "message") props = Some (JObject members) ->
        lookup (lit "toString") members <> None ->
        result
        = Normal (Fulfilled
                    (mkOutcome false
                       (lit "Network or other error: Cannot convert object to primitive value")))).
Proof.
  intros Hurl Hnet Hok result failed status_detail.
  subst result failed status_detail.
  unfold FlomoAPI.sendToFlomo, async, try_catch, bind, fetch, await,
    interpolate.
  rewrite Hurl. cbn. unfold webhook_request in Hnet. rewrite Hnet. cbn.
  rewrite Hok. cbn.
  split; [| split; [| split; [| split]]].
  - intros e Ejson. rewrite Ejson. reflexivity.
  - intros data Ejson Efalsy. rewrite Ejson. cbn. rewrite Efalsy.
    reflexivity.
  - intros props s Ejson Emessage. rewrite Ejson. cbn. rewrite Emessage.
    reflexivity.
  - intros data Ejson Etruthy Emessage. rewrite Ejson. cbn.
    rewrite Etruthy, Emessage. reflexivity.
  - intros props members Ejson Emessage Hmember. rewrite Ejson. cbn.
    rewrite Emessage. cbn.
    destruct (lookup (lit "toString") members); [reflexivity | congruence].
Qed.

Lemma sendToFlomo_detail_of_a_refused_note_witness :
  fst (FlomoAPI.sendToFlomo Sample.flomo (lit "hello")
         (Sample.env_answering Sample.refused_without_message)
         (mkWorld [] tt))
  = Normal (Fulfilled
              (mkOutcome false (lit "Failed to send to Flomo. undefined")))
  /\ fst (FlomoAPI.sendToFlomo Sample.flomo (lit "hello")
            (Sample.env_answering Sample.rejected) (mkWorld [] tt))
     = Normal (Fulfilled
                 (mkOutcome false
                    (lit "Failed to send to Flomo. quota exceeded")))
  /\ fst (FlomoAPI.sendToFlomo Sample.flomo (lit "hello")
            (Sample.env_answering Sample.refused_with_unprintable_message)
            (mkWorld [] tt))
     = Normal (Fulfilled
                 (mkOutcome false
                    (lit "Network or other error: Cannot convert object to primitive value"))).
Proof.
  split; [| split].
  - exact (proj1 (proj2 (proj2 (proj2
             (@sendToFlomo_detail_of_a_refused_note unit Sample.flomo
                (lit "hello")
                (Sample.env_answering Sample.refused_without_message)
                (mkWorld [] tt) Sample.refused_without_message
                eq_refl eq_refl eq_refl))))
             _ eq_refl eq_refl eq_refl).
  - exact (proj1 (proj2 (proj2
             (@sendToFlomo_detail_of_a_refused_note unit Sample.flomo
                (lit "hello") (Sample.env_answering Sample.rejected)
                (mkWorld [] tt) Sample.rejected
                eq_refl eq_refl eq_refl)))
             _ (lit "quota exceeded") eq_refl eq_refl).
  - refine (proj2 (proj2 (proj2 (proj2
              (@sendToFlomo_detail_of_a_refused_note unit Sample.flomo
                 (lit "hello")
                 (Sample.env_answering
                    Sample.refused_with_unprintable_message)
                 (mkWorld [] tt) Sample.refused_with_unprintable_message
                 eq_refl eq_refl eq_refl))))
              _ _ eq_refl eq_refl _).
    discriminate.
Defined.

(** C5. When the local server answers the Obsidian probe: any success
    status (200 to 299) gives the success outcome; 401 gives the failure
    that says to check the API token; 404 gives the failure that says to
    check that the Local REST API plugin is enabled; any other status gives
    the generic failure, which carries the status and the status text. The
    401 and 404 messages differ from each other, and no generic message
    equals either. *)
Theorem testConnection_tells_statuses_apart (H : Type)
  (this : ObsidianWriter.t) (env : Env) (w : World H) (response : Response) :
  configured this = true ->
  network env (trace w ++ [EvCall ObsidianWriter_testConnection])
          (probe_request (ObsidianWriter.apiUrl this)
                         (string_value (ObsidianWriter.apiToken this)))
  = Fulfilled response ->
  let result := fst (ObsidianWriter.testConnection this env w) in
  (200 <= status response <= 299 ->
   result = Normal (Fulfilled
                      (mkOutcome true
                         (lit "Obsidian API connection successful."))))
  /\ (status response = 401 ->
      result = Normal (Fulfilled (mkOutcome false unauthorized_message)))
  /\ (status response = 404 ->
      result = Normal (Fulfilled (mkOutcome false not_found_message)))
  /\ (~ 200 <= status response <= 299 ->
      status response <> 401 -> status response <> 404 ->
      result = Normal (Fulfilled
                         (mkOutcome false
                            (generic_failure_message (status response)
                               (statusText response)))))
  /\ unauthorized_message <> not_found_message
  /\ (forall (s : nat) (t : jsstring),
         generic_failure_message s t <> unauthorized_message
         /\ generic_failure_message s t <> not_found_message).
Proof.
  intros Hconf Hnet result.
  assert (Hrun : result
                 = Normal (Fulfilled
                     (if ok response then
                        mkOutcome true
                          (lit "Obsidian API connection successful.")
                      else
                        mkOutcome false
                          (if status response =? 401 then unauthorized_message
                           else if status response =? 404
                                then not_found_message
                                else generic_failure_message
                                       (status response)
                                       (statusText response))))).
  { subst result.
    unfold ObsidianWriter.testConnection, async, try_catch, bind, fetch,
      await.
    unfold configured in Hconf. apply andb_true_iff in Hconf.
    destruct Hconf as [Hv Ht]. rewrite Hv, Ht. cbn.
    unfold probe_request in Hnet. rewrite Hnet. cbn.
    destruct (ok response); cbn; [reflexivity |].
    destruct (status response =? 401); [reflexivity |].
    destruct (status response =? 404); reflexivity. }
  rewrite Hrun. unfold ok.
  repeat split.
  - intros [Hlo Hhi].
    apply Nat.leb_le in Hlo. apply Nat.leb_le in Hhi.
    now rewrite Hlo, Hhi.
  - intros ->. reflexivity.
  - intros ->. reflexivity.
  - intros Hrange H401 H404.
    apply Nat.eqb_neq in H401. apply Nat.eqb_neq in H404.
    rewrite H401, H404.
    destruct (200 <=? status response) eqn:Hlo;
      destruct (status response <=? 299) eqn:Hhi; cbn; try reflexivity.
    exfalso. apply Hrange.
    split; [now apply Nat.leb_le | now apply Nat.leb_le].
  - intro E. vm_compute in E. discriminate.
  - intro E. apply (f_equal (hd 0%N)) in E. vm_compute in E. discriminate.
  - intro E. apply (f_equal (hd 0%N)) in E. vm_compute in E. discriminate.
Qed.

Lemma testConnection_tells_statuses_apart_witness :
  fst (ObsidianWriter.testConnection Sample.obsidian Sample.env
         (mkWorld [] tt))
  = Normal (Fulfilled (mkOutcome false unauthorized_message)).
Proof.
  exact (proj1 (proj2 (@testConnection_tells_statuses_apart unit
                         Sample.obsidian Sample.env (mkWorld [] tt)
                         Sample.unauthorized eq_refl eq_refl))
           eq_refl).
Defined.

(** C6. Whatever the content: a Flomo send whose webhook URL is unset
    ([undefined] or empty) settles at once to the failure "Flomo API URL is
    not set.", and an Obsidian send whose vault name or API token is empty
    settles at once to the failure "Obsidian Vault Name or API Token is not
    set."; in both cases the only event is the call itself, so no request
    is sent. *)
Theorem unconfigured_send_fails_without_request (H : Type)
  (content : jsstring) (env : Env) (w : World H) :
  (forall this : FlomoAPI.t,
      truthy_opt (FlomoAPI.api_url this) = false ->
      FlomoAPI.sendToFlomo this content env w
      = (Normal (Fulfilled
                   (mkOutcome false (lit "Flomo API URL is not set."))),
         mkWorld (trace w ++ [EvCall (FlomoAPI_sendToFlomo content)])
                 (heap w))
      /\ requests (trace (snd (FlomoAPI.sendToFlomo this content env w)))
         = requests (trace w))
  /\ (forall this : ObsidianWriter.t,
      truthy (ObsidianWriter.vaultName this) = false
      \/ truthy_opt (ObsidianWriter.apiToken this) = false ->
      ObsidianWriter.sendToObsidian this content env w
      = (Normal (Fulfilled
                   (mkOutcome false
                      (lit "Obsidian Vault Name or API Token is not set."))),
         mkWorld (trace w ++ [EvCall (ObsidianWriter_sendToObsidian content)])
                 (heap w))
      /\ requests (trace (snd (ObsidianWriter.sendToObsidian this content
                                 env w)))
         = requests (trace w)).
Proof.
  split.
  - intros this Hurl.
    assert (E : FlomoAPI.sendToFlomo this content env w
                = (Normal (Fulfilled
                             (mkOutcome false
                                (lit "Flomo API URL is not set."))),
                   mkWorld (trace w ++ [EvCall (FlomoAPI_sendToFlomo content)])
                           (heap w))).
    { unfold FlomoAPI.sendToFlomo, async. rewrite Hurl. reflexivity. }
    split; [exact E |].
    rewrite E. cbn [snd trace]. rewrite requests_app. cbn. apply app_nil_r.
  - intros this Hconf.
    assert (E : ObsidianWriter.sendToObsidian this content env w
                = (Normal (Fulfilled
                             (mkOutcome false
                                (lit "Obsidian Vault Name or API Token is not set."))),
                   mkWorld (trace w
                            ++ [EvCall (ObsidianWriter_sendToObsidian content)])
                           (heap w))).
    { unfold ObsidianWriter.sendToObsidian, async.
      destruct Hconf as [Hv | Ht].
      - rewrite Hv. reflexivity.
      - rewrite Ht, orb_true_r. reflexivity. }
    split; [exact E |].
    rewrite E. cbn [snd trace]. rewrite requests_app. cbn. apply app_nil_r.
Qed.

Lemma unconfigured_send_fails_without_request_witness :
  FlomoAPI.sendToFlomo Sample.flomo_unset (lit "hello") Sample.env
    (mkWorld [] tt)
  = (Normal (Fulfilled (mkOutcome false (lit "Flomo API URL is not set."))),
     mkWorld [EvCall (FlomoAPI_sendToFlomo (lit "hello"))] tt)
  /\ ObsidianWriter.sendToObsidian Sample.obsidian_unset (lit "hello")
       Sample.env (mkWorld [] tt)
     = (Normal (Fulfilled
                  (mkOutcome false
                     (lit "Obsidian Vault Name or API Token is not set."))),
        mkWorld [EvCall (ObsidianWriter_sendToObsidian (lit "hello"))] tt).
Proof.
  split.
  - exact (proj1 (proj1 (unconfigured_send_fails_without_request
                           (lit "hello") Sample.env (mkWorld [] tt))
                    Sample.flomo_unset eq_refl)).
  - exact (proj1 (proj2 (unconfigured_send_fails_without_request
                           (lit "hello") Sample.env (mkWorld [] tt))
                    Sample.obsidian_unset (or_intror eq_refl))).
Defined.

(** C7. When the trimmed content is empty, and likewise when it is not but
    neither destination is checked, [submitNote] enters no client method and
    sends nothing (the trace is unchanged), and all it does to the page is
    [updateStatus] with the matching validation message: the input, the
    submit button and the API handlers are as they were. *)
Theorem submitNote_rejects_invalid_input (env : Env) (w : World Popup.Page) :
  let els := Popup.elements (heap w) in
  let report (text : jsstring) :=
    (Normal tt,
     mkWorld (trace w)
       (Popup.mkPage
          (Popup.mkElements
             (Popup.memoContent_value els)
             (Popup.submitButton_disabled els)
             (Popup.submitButton_textContent els)
             text
             (lit "status-message " ++ lit "error")
             true
             (Popup.resultBox_children els)
             (Popup.sendToFlomo_checked els)
             (Popup.sendToObsidian_checked els))
          (Popup.state (heap w)))) in
  (truthy (trim (Popup.memoContent_value els)) = false ->
   Popup.submitNote env w = report (lit "Note content cannot be empty."))
  /\ (truthy (trim (Popup.memoContent_value els)) = true ->
      Popup.sendToFlomo_checked els = false ->
      Popup.sendToObsidian_checked els = false ->
      Popup.submitNote env w
      = report (lit "Please select a destination (Flomo or Obsidian).")).
Proof.
  destruct w as [tr [e st]]. destruct e as [v dis txt smt smc rh rc tf to].
  cbn. split.
  - intros Hempty.
    unfold_popup. cbn. rewrite Hempty. reflexivity.
  - intros Hcontent -> ->.
    unfold_popup. cbn. rewrite Hcontent. reflexivity.
Qed.

Lemma submitNote_rejects_invalid_input_witness :
  (Popup.submitNote Sample.env
     (Sample.world (lit "  " ++ LF) true true)
   = (Normal tt,
      mkWorld []
        (Popup.mkPage
           (Popup.mkElements (lit "  " ++ LF) false (lit "Submit to Both")
              (lit "Note content cannot be empty.")
              (lit "status-message error") true [] true true)
           (Popup.mkState Sample.config (Some Sample.flomo)
                          (Some Sample.obsidian)))))
  /\ (Popup.submitNote Sample.env (Sample.world (lit "hello") false false)
      = (Normal tt,
         mkWorld []
           (Popup.mkPage
              (Popup.mkElements (lit "hello") false (lit "Submit")
                 (lit "Please select a destination (Flomo or Obsidian).")
                 (lit "status-message error") true [] false false)
              (Popup.mkState Sample.config (Some Sample.flomo)
                             (Some Sample.obsidian))))).
Proof.
  split.
  - exact (proj1 (submitNote_rejects_invalid_input Sample.env
                    (Sample.world (lit "  " ++ LF) true true)) eq_refl).
  - exact (proj2 (submitNote_rejects_invalid_input Sample.env
                    (Sample.world (lit "hello") false false))
             eq_refl eq_refl eq_refl).
Defined.

(** C8. The generated file name is a function of the clock reading alone:
    the year as JavaScript prints it, then [-MM-DD_HH-mm-ss.md] with month
    (counted from 1), day, hours, minutes and seconds as two decimal digits
    each; in a year of four digits that is exactly
    [YYYY-MM-DD_HH-mm-ss.md]. Two readings of the same wall-clock second
    give the same name, and so two sends of a configured client within one
    second put the same file name in the requests they issue. *)
Theorem generateFileName_is_the_timestamp_of_the_second :
  (forall (H : Type) (this : ObsidianWriter.t) (env : Env) (w : World H),
      clock_fields (clock env (trace w)) ->
      ObsidianWriter.generateFileName this env w
      = (Normal (String_of_Z (getFullYear (clock env (trace w)))
                 ++ MM_DD_HH_mm_ss_md (clock env (trace w))), w))
  /\ (forall (H : Type) (this : ObsidianWriter.t) (env : Env) (w : World H),
      wall_clock (clock env (trace w)) ->
      ObsidianWriter.generateFileName this env w
      = (Normal (timestamp_name (clock env (trace w))), w))
  /\ (forall (H1 H2 : Type) (this1 this2 : ObsidianWriter.t)
             (env1 env2 : Env) (w1 : World H1) (w2 : World H2),
      same_second (clock env1 (trace w1)) (clock env2 (trace w2)) ->
      fst (ObsidianWriter.generateFileName this1 env1 w1)
      = fst (ObsidianWriter.generateFileName this2 env2 w2))
  /\ (forall (H : Type) (this : ObsidianWriter.t)
             (content1 content2 : jsstring) (env1 env2 : Env)
             (w1 w2 : World H),
      configured this = true ->
      same_second
        (clock env1
           (trace w1 ++ [EvCall (ObsidianWriter_sendToObsidian content1)]))
        (clock env2
           (trace w2 ++ [EvCall (ObsidianWriter_sendToObsidian content2)])) ->
      exists fileName : jsstring,
        requests (trace (snd (ObsidianWriter.sendToObsidian this content1
                                env1 w1)))
        = requests (trace w1)
          ++ [notes_request (ObsidianWriter.apiUrl this)
                (string_value (ObsidianWriter.apiToken this))
                (ObsidianWriter.vaultName this) fileName content1]
        /\ requests (trace (snd (ObsidianWriter.sendToObsidian this content2
                                   env2 w2)))
           = requests (trace w2)
             ++ [notes_request (ObsidianWriter.apiUrl this)
                   (string_value (ObsidianWriter.apiToken this))
                   (ObsidianWriter.vaultName this) fileName content2]).
Proof.
  split; [| split; [| split]].
  - intros H this env w Hclock.
    rewrite generateFileName_run, (generateFileName_at_fields Hclock).
    reflexivity.
  - intros H this env w Hclock.
    rewrite generateFileName_run, (generateFileName_at_format Hclock).
    reflexivity.
  - intros H1 H2 this1 this2 env1 env2 w1 w2 Hsame.
    rewrite !generateFileName_run. cbn [fst].
    now rewrite (generateFileName_at_same_second Hsame).
  - intros H this content1 content2 env1 env2 w1 w2 Hconf Hsame.
    destruct (sendToObsidian_run this content1 env1 (trace w1))
      as (o1 & sent1 & Hsent1 & Hrun1).
    destruct (sendToObsidian_run this content2 env2 (trace w2))
      as (o2 & sent2 & Hsent2 & Hrun2).
    rewrite Hconf in Hsent1, Hsent2.
    rewrite (generateFileName_at_same_second Hsame) in Hsent1.
    eexists. rewrite (Hrun1 H w1 eq_refl), (Hrun2 H w2 eq_refl).
    cbn [snd trace]. rewrite !requests_app, Hsent1, Hsent2. cbn.
    split; reflexivity.
Qed.

Lemma generateFileName_is_the_timestamp_of_the_second_witness :
  ObsidianWriter.generateFileName Sample.obsidian Sample.env (mkWorld [] tt)
  = (Normal (lit "2024-01-05_09-03-07.md"), mkWorld [] tt)
  /\ fst (ObsidianWriter.generateFileName Sample.obsidian Sample.env
            (mkWorld [] tt))
     = fst (ObsidianWriter.generateFileName Sample.obsidian
              Sample.env_rejecting (mkWorld [] tt)).
Proof.
  split.
  - apply (proj1 (proj2 generateFileName_is_the_timestamp_of_the_second)
             unit Sample.obsidian Sample.env (mkWorld [] tt)).
    unfold wall_clock, clock_fields. cbn. lia.
  - apply (proj1 (proj2 (proj2
                    generateFileName_is_the_timestamp_of_the_second))
             unit unit Sample.obsidian Sample.obsidian
             Sample.env Sample.env_rejecting (mkWorld [] tt) (mkWorld [] tt)).
    unfold same_second. cbn. repeat split; reflexivity.
Defined.

(** C9. A send by a client built with a vault name that is non-empty once
    trimmed and a non-empty token settles to an outcome and issues exactly
    one request: a POST to the loopback base followed by [/notes], a URL
    made of the port alone, whose body is
    [{path: "<vaultName>/<fileName>", content: <content>}] with
    [<fileName>] the name generated at that moment. The vault name enters
    the request there and nowhere else. *)
Theorem sendToObsidian_issues_one_notes_request (H : Type)
  (vault token port : option jsstring) (content : jsstring) (env : Env)
  (w : World H) :
  let this := ObsidianWriter.new vault token port in
  let port' := match port with None => lit "27123" | Some p => p end in
  configured this = true ->
  exists (fileName : jsstring) (request : Request) (o : Outcome),
    fst (ObsidianWriter.generateFileName this env
           (mkWorld
              (trace w ++ [EvCall (ObsidianWriter_sendToObsidian content)])
              (heap w)))
    = Normal fileName
    /\ ObsidianWriter.sendToObsidian this content env w
       = (Normal (Fulfilled o),
          mkWorld (trace w ++ [EvCall (ObsidianWriter_sendToObsidian content);
                               EvFetch request])
                  (heap w))
    /\ requests (trace (snd (ObsidianWriter.sendToObsidian this content
                               env w)))
       = requests (trace w) ++ [request]
    /\ request = notes_request (loopback port') (string_value token)
                   (ObsidianWriter.vaultName this) fileName content
    /\ method request = lit "POST"
    /\ url request = lit "http://127.0.0.1:" ++ port' ++ lit "/notes"
    /\ headers request
       = [(lit "Content-Type", lit "application/json");
          (lit "Authorization", lit "Bearer " ++ string_value token)]
    /\ body request
       = Some (JObject
                 [(lit "path",
                   JString (ObsidianWriter.vaultName this ++ lit "/"
                            ++ fileName));
                  (lit "content", JString content)]).
Proof.
  intros this port' Hconf.
  destruct (sendToObsidian_run this content env (trace w))
    as (o & sent & Hsent & Hrun).
  rewrite Hconf in Hsent.
  eexists _, _, o.
  split; [rewrite generateFileName_run; reflexivity |].
  rewrite (Hrun H w eq_refl), Hsent. cbn [snd trace map].
  split; [reflexivity |].
  split; [rewrite requests_app; reflexivity |].
  split; [reflexivity |].
  split; [reflexivity |].
  split; [cbn; unfold loopback; now rewrite <- app_assoc |].
  split; reflexivity.
Qed.

Lemma sendToObsidian_issues_one_notes_request_witness :
  requests (trace (snd (ObsidianWriter.sendToObsidian Sample.obsidian
                          (lit "hello") Sample.env (mkWorld [] tt))))
  = [mkRequest (lit "http://127.0.0.1:27123/notes") (lit "POST")
       [(lit "Content-Type", lit "application/json");
        (lit "Authorization", lit "Bearer secret")]
       (Some (JObject
                [(lit "path", JString (lit "Notes/2024-01-05_09-03-07.md"));
                 (lit "content", JString (lit "hello"))]))].
Proof.
  destruct (@sendToObsidian_issues_one_notes_request unit
              (Some (lit " Notes ")) (Some (lit "secret")) None (lit "hello")
              Sample.env (mkWorld [] tt) eq_refl)
    as (fileName & request & o & Hname & _ & Hreqs & Hreq & _).
  injection Hname as <-.
  rewrite Hreq in Hreqs. exact Hreqs.
Defined.

(** C10. The probe of a client depends on its token and port only. Two
    clients built with the same token and port and with any two vault names
    that are non-empty once trimmed behave identically from the same world:
    same request, same outcome, same trace. When the token is set, that one
    request is a HEAD to the loopback base followed by [/vault/], carrying
    the bearer token and nothing that names a vault. *)
Theorem testConnection_ignores_the_vault_name (H : Type)
  (vault1 vault2 token port : option jsstring) (env : Env) (w : World H) :
  let this1 := ObsidianWriter.new vault1 token port in
  let this2 := ObsidianWriter.new vault2 token port in
  let port' := match port with None => lit "27123" | Some p => p end in
  truthy (ObsidianWriter.vaultName this1) = true ->
  truthy (ObsidianWriter.vaultName this2) = true ->
  ObsidianWriter.testConnection this1 env w
  = ObsidianWriter.testConnection this2 env w
  /\ (truthy_opt token = true ->
      requests (trace (snd (ObsidianWriter.testConnection this1 env w)))
      = requests (trace w)
        ++ [mkRequest (lit "http://127.0.0.1:" ++ port' ++ lit "/vault/")
              (lit "HEAD")
              [(lit "Authorization", lit "Bearer " ++ string_value token)]
              None]).
Proof.
  intros this1 this2 port' Hv1 Hv2.
  split.
  - unfold ObsidianWriter.testConnection. rewrite Hv1, Hv2. reflexivity.
  - intros Htoken.
    destruct (Obsidian_testConnection_run this1 env (trace w))
      as (o & sent & Hsent & Hrun).
    unfold configured in Hsent. rewrite Hv1 in Hsent.
    cbn [ObsidianWriter.apiToken this1 ObsidianWriter.new] in Hsent.
    rewrite Htoken in Hsent. cbn [andb] in Hsent.
    rewrite (Hrun H w eq_refl), Hsent. cbn [snd trace map].
    rewrite requests_app. cbn. unfold probe_request.
    now rewrite <- app_assoc.
Qed.

Lemma testConnection_ignores_the_vault_name_witness :
  ObsidianWriter.testConnection Sample.obsidian Sample.env (mkWorld [] tt)
  = ObsidianWriter.testConnection Sample.obsidian_other_vault Sample.env
      (mkWorld [] tt)
  /\ requests (trace (snd (ObsidianWriter.testConnection Sample.obsidian
                             Sample.env (mkWorld [] tt))))
     = [mkRequest (lit "http://127.0.0.1:27123/vault/") (lit "HEAD")
          [(lit "Authorization", lit "Bearer secret")] None].
Proof.
  destruct (@testConnection_ignores_the_vault_name unit
              (Some (lit " Notes ")) (Some (lit "Elsewhere"))
              (Some (lit "secret")) None Sample.env (mkWorld [] tt)
              eq_refl eq_refl) as [Hsame Hreqs].
  split; [exact Hsame | exact (Hreqs eq_refl)].
Defined.

(* ================================================================== *)
(** ** Further properties of the code *)
(* ================================================================== *)

(** Unfolds the settings functions down to the monad's operations. *)
Ltac unfold_settings :=
  unfold Settings.loadConfigAndSetup, Settings.saveConfig,
    Settings.testFlomoConnection, Settings.testObsidianConnection,
    Settings.memoContent_keydown, Settings.submitButton_click,
    Settings.detached, Settings.chrome_storage_local_get,
    Settings.chrome_storage_local_set, Settings.state_config,
    Settings.assign_state_config, Settings.read_input,
    Settings.assign_input, Settings.lift,
    Popup.reinitializeApis, Popup.updateStatus,
    Popup.updateSubmitButtonState, Popup.read, Popup.assign, modify_heap,
    get_heap, try_catch, await, throw, bind, ret.

(** *** Strings *)

Lemma trimStart_whitespace (s : jsstring) :
  forallb is_white_space s = true -> trimStart s = [].
Proof.
  induction s as [| c s IH]; cbn; [reflexivity |].
  intros Hall. apply andb_true_iff in Hall. destruct Hall as [Hc Hs].
  rewrite Hc. exact (IH Hs).
Qed.

Lemma trim_whitespace (s : jsstring) :
  forallb is_white_space s = true -> trim s = [].
Proof.
  intros Hall. unfold trim, trimEnd.
  rewrite (trimStart_whitespace s Hall). reflexivity.
Qed.

(** [trimStart] returns a suffix that does not start with white space. *)
Lemma trimStart_head (s : jsstring) :
  match trimStart s with
  | [] => True
  | c :: _ => is_white_space c = false
  end.
Proof.
  induction s as [| c s IH]; cbn; [exact I |].
  destruct (is_white_space c) eqn:Hc; [exact IH | exact Hc].
Qed.

Lemma trimStart_fixed (s : jsstring) :
  match s with
  | [] => True
  | c :: _ => is_white_space c = false
  end ->
  trimStart s = s.
Proof.
  destruct s as [| c s]; cbn; [reflexivity |]. now intros ->.
Qed.

Lemma trimStart_idempotent (s : jsstring) :
  trimStart (trimStart s) = trimStart s.
Proof. apply trimStart_fixed, trimStart_head. Qed.

(** Trimming the start keeps the last code unit of what is left. *)
Lemma trimStart_suffix (s : jsstring) :
  exists p, s = p ++ trimStart s /\ forallb is_white_space p = true.
Proof.
  induction s as [| c s (p & Hp & Hall)]; cbn.
  - exists []. split; reflexivity.
  - destruct (is_white_space c) eqn:Hc.
    + exists (c :: p). cbn. rewrite Hc, Hall. split; [now f_equal | reflexivity].
    + exists []. split; reflexivity.
Qed.

Lemma trimStart_empty (s : jsstring) :
  trimStart s = [] -> forallb is_white_space s = true.
Proof.
  intros Hs. destruct (trimStart_suffix s) as (p & Hp & Hall).
  rewrite Hs, app_nil_r in Hp. now subst p.
Qed.

Lemma forallb_rev (A : Type) (f : A -> bool) (l : list A) :
  forallb f (rev l) = forallb f l.
Proof.
  induction l as [| a l IH]; cbn; [reflexivity |].
  rewrite forallb_app, IH. cbn. rewrite andb_true_r. apply andb_comm.
Qed.

(** Only a string of white space trims to the empty string. *)
Lemma trim_empty (s : jsstring) :
  trim s = [] <-> forallb is_white_space s = true.
Proof.
  split; [| apply trim_whitespace].
  unfold trim, trimEnd. intros Hs.
  apply (f_equal (@rev code_unit)) in Hs. rewrite rev_involutive in Hs.
  cbn in Hs. apply trimStart_empty in Hs. rewrite forallb_rev in Hs.
  pose proof (trimStart_head s) as Hhead.
  destruct (trimStart s) as [| c t] eqn:Ht.
  - now apply trimStart_empty.
  - cbn in Hs. rewrite Hhead in Hs. discriminate.
Qed.

Lemma trim_idempotent (s : jsstring) : trim (trim s) = trim s.
Proof.
  unfold trim, trimEnd.
  set (t := trimStart s). set (u := trimStart (rev t)).
  assert (Hfix : trimStart (rev u) = rev u).
  { apply trimStart_fixed.
    destruct (trimStart_suffix (rev t)) as (p & Hp & _). fold u in Hp.
    apply (f_equal (@rev code_unit)) in Hp.
    rewrite rev_involutive, rev_app_distr in Hp.
    pose proof (trimStart_head s) as Hhead. fold t in Hhead.
    destruct (rev u) as [| c r]; [exact I |].
    rewrite Hp in Hhead. exact Hhead. }
  rewrite Hfix, rev_involutive. unfold u.
  now rewrite trimStart_idempotent.
Qed.

Lemma truthy_false (s : jsstring) : truthy s = false <-> s = [].
Proof. destruct s; cbn; split; congruence. Qed.

(** *** The Obsidian client's settings *)

Lemma vaultName_new (vault token port : option jsstring) :
  ObsidianWriter.vaultName (ObsidianWriter.new vault token port)
  = match vault with
    | Some v => trim v
    | None => []
    end.
Proof.
  destruct vault as [[| c v] |]; reflexivity.
Qed.

Lemma configured_new (vault token port : option jsstring) :
  configured (ObsidianWriter.new vault token port)
  = negb (blank vault) && truthy_opt token.
Proof.
  unfold configured. rewrite vaultName_new. cbn [ObsidianWriter.apiToken
    ObsidianWriter.new]. f_equal.
  destruct vault as [v |]; cbn [blank]; [| reflexivity].
  destruct (forallb is_white_space v) eqn:Hall.
  - now rewrite (trim_whitespace v Hall).
  - destruct (trim v) as [| c t] eqn:Ht; [| reflexivity].
    apply trim_empty in Ht. congruence.
Qed.

(** X1. An Obsidian client is usable exactly when the vault name it was
    built with holds a character that is not white space and its token is
    non-empty. Otherwise (vault name [undefined], empty or all white space,
    or token [undefined] or empty) both its send and its probe settle to
    "Obsidian Vault Name or API Token is not set." and [fetch] is never
    called. *)
Theorem obsidian_client_needs_vault_and_token (H : Type)
  (vault token port : option jsstring) (content : jsstring) (env : Env)
  (w : World H) :
  let this := ObsidianWriter.new vault token port in
  (configured this = true <-> blank vault = false /\ truthy_opt token = true)
  /\ (blank vault = true \/ truthy_opt token = false ->
      ObsidianWriter.sendToObsidian this content env w
      = (Normal (Fulfilled obsidian_not_set),
         mkWorld (trace w ++ [EvCall (ObsidianWriter_sendToObsidian content)])
                 (heap w))
      /\ ObsidianWriter.testConnection this env w
         = (Normal (Fulfilled obsidian_not_set),
            mkWorld (trace w ++ [EvCall ObsidianWriter_testConnection])
                    (heap w))).
Proof.
  intros this. pose proof (configured_new vault token port) as Hconf.
  fold this in Hconf. split.
  - rewrite Hconf, andb_true_iff, negb_true_iff. reflexivity.
  - intros Hmissing.
    assert (Hoff : configured this = false).
    { rewrite Hconf. destruct Hmissing as [-> | ->];
        [reflexivity | apply andb_false_r]. }
    unfold configured in Hoff. apply andb_false_iff in Hoff.
    assert (Hguard : negb (truthy (ObsidianWriter.vaultName this))
                     || negb (truthy_opt (ObsidianWriter.apiToken this))
                     = true).
    { destruct Hoff as [-> | ->]; [reflexivity | apply orb_true_r]. }
    unfold ObsidianWriter.sendToObsidian, ObsidianWriter.testConnection,
      async. rewrite Hguard. split; reflexivity.
Qed.

Lemma obsidian_client_needs_vault_and_token_witness :
  ObsidianWriter.sendToObsidian
    (ObsidianWriter.new (Some (lit "   ")) (Some (lit "secret")) None)
    (lit "hello") Sample.env (mkWorld [] tt)
  = (Normal (Fulfilled obsidian_not_set),
     mkWorld [EvCall (ObsidianWriter_sendToObsidian (lit "hello"))] tt)
  /\ ObsidianWriter.testConnection
       (ObsidianWriter.new (Some (lit "   ")) (Some (lit "secret")) None)
       Sample.env (mkWorld [] tt)
     = (Normal (Fulfilled obsidian_not_set),
        mkWorld [EvCall ObsidianWriter_testConnection] tt).
Proof.
  exact (proj2 (@obsidian_client_needs_vault_and_token unit
                  (Some (lit "   ")) (Some (lit "secret")) None
                  (lit "hello") Sample.env (mkWorld [] tt))
           (or_introl eq_refl)).
Defined.

(** X2. While the API handlers are still [null] (the configuration has not
    been loaded yet, or loading it failed), a submission that passes
    validation throws a [TypeError] at its first selected destination. No
    client method is entered and nothing is sent, and the page stays as the
    start of the submission left it: status "Submitting...", submit button
    disabled, input untouched. *)
Theorem submitNote_throws_while_handlers_are_null (env : Env)
  (w : World Popup.Page) :
  let els := Popup.elements (heap w) in
  let toFlomo := Popup.sendToFlomo_checked els in
  let toObsidian := Popup.sendToObsidian_checked els in
  truthy (trim (Popup.memoContent_value els)) = true ->
  toFlomo || toObsidian = true ->
  Popup.flomoAPI (Popup.state (heap w)) = None ->
  Popup.obsidianAPI (Popup.state (heap w)) = None ->
  Popup.submitNote env w
  = (Throw (Popup.TypeError_null
              (if toFlomo then "sendToFlomo" else "sendToObsidian")),
     mkWorld (trace w)
       (Popup.mkPage
          (Popup.mkElements
             (Popup.memoContent_value els)
             true
             (Popup.submitButton_textContent els)
             (lit "Submitting...")
             (lit "status-message " ++ lit "loading")
             true
             (Popup.resultBox_children els)
             toFlomo toObsidian)
          (Popup.state (heap w)))).
Proof. exact (submitNote_null_run env w). Qed.

Lemma submitNote_throws_while_handlers_are_null_witness :
  fst (Popup.submitNote Sample.env
         (mkWorld []
            (Popup.mkPage (Sample.elements (lit "hello") true false)
               (Popup.mkState Settings.empty_config None None))))
  = Throw (Popup.TypeError_null "sendToFlomo").
Proof.
  exact (f_equal fst
           (submitNote_throws_while_handlers_are_null Sample.env
              (mkWorld []
                 (Popup.mkPage (Sample.elements (lit "hello") true false)
                    (Popup.mkState Settings.empty_config None None)))
              eq_refl eq_refl eq_refl eq_refl)).
Defined.

(** X3. A Flomo send always settles to an outcome, and the outcome is a
    success exactly when the webhook URL is set and the webhook answered
    with a success status; the success message is fixed. When the URL is
    set and [fetch] itself fails, the outcome is the failure
    "Network or other error: <error.message>". *)
Theorem sendToFlomo_succeeds_iff_webhook_accepts (H : Type)
  (this : FlomoAPI.t) (content : jsstring) (env : Env) (w : World H) :
  let answer :=
    network env (trace w ++ [EvCall (FlomoAPI_sendToFlomo content)])
      (webhook_request (string_value (FlomoAPI.api_url this)) content) in
  exists (o : Outcome) (w' : World H),
    FlomoAPI.sendToFlomo this content env w = (Normal (Fulfilled o), w')
    /\ (success o = true
        <-> truthy_opt (FlomoAPI.api_url this) = true
            /\ exists r, answer = Fulfilled r /\ ok r = true)
    /\ (success o = true ->
        message o = lit "Note sent to Flomo successfully.")
    /\ (truthy_opt (FlomoAPI.api_url this) = true ->
        forall e, answer = Rejected e ->
          o = mkOutcome false
                (lit "Network or other error: " ++ Js.message e)).
Proof.
  intros answer. subst answer.
  unfold FlomoAPI.sendToFlomo, async, try_catch, bind, fetch, await,
    webhook_request.
  destruct (truthy_opt (FlomoAPI.api_url this)) eqn:Eurl; cbn.
  - destruct (network env _ _) as [r | e] eqn:Enet; cbn.
    + destruct (ok r) eqn:Eok; cbn.
      * eexists _, _. split; [reflexivity |]. cbn.
        split; [split; [intros _; split; [reflexivity | now exists r]
                       | reflexivity] |].
        split; [reflexivity | discriminate].
      * unfold interpolate.
        destruct (json r) as [data | e]; cbn;
          [destruct (Json_truthy data); cbn;
           [destruct (to_string (get_prop data (lit "message"))); cbn |] |];
          eexists _, _; (split; [reflexivity |]); cbn.
        all: split;
          [split; [discriminate
                  | intros (_ & r' & [= <-] & Hok); congruence] |].
        all: split; [discriminate | discriminate].
    + eexists _, _. split; [reflexivity |]. cbn.
      split; [split; [discriminate
                     | intros (_ & r' & Hr & _); discriminate] |].
      split; [discriminate |]. now intros _ e' [= <-].
  - eexists _, _. split; [reflexivity |]. cbn.
    split; [split; [discriminate | intros (Hu & _); discriminate] |].
    split; discriminate.
Qed.

Lemma sendToFlomo_succeeds_iff_webhook_accepts_witness :
  exists (o : Outcome) (w' : World unit),
    FlomoAPI.sendToFlomo Sample.flomo (lit "hello") Sample.env
      (mkWorld [] tt)
    = (Normal (Fulfilled o), w')
    /\ success o = true
    /\ message o = lit "Note sent to Flomo successfully.".
Proof.
  destruct (@sendToFlomo_succeeds_iff_webhook_accepts unit Sample.flomo
              (lit "hello") Sample.env (mkWorld [] tt))
    as (o & w' & Hrun & Hiff & Hmsg & _).
  exists o, w'. split; [exact Hrun |].
  assert (Hs : success o = true).
  { apply Hiff. split; [reflexivity |].
    exists Sample.accepted. split; reflexivity. }
  split; [exact Hs | exact (Hmsg Hs)].
Defined.

(** X4. A send by a configured Obsidian client succeeds exactly when the
    local server answered with a success status, and the success message
    names the very file the request asked for. A refusal whose body can be
    read is reported with its status and body; a refusal whose body cannot
    be read is reported, like a failed [fetch], as
    "Network or other error: <error.message>", and its status is lost. *)
Theorem sendToObsidian_outcome (H : Type) (this : ObsidianWriter.t)
  (content : jsstring) (env : Env) (w : World H) :
  configured this = true ->
  let called :=
    trace w ++ [EvCall (ObsidianWriter_sendToObsidian content)] in
  let fileName := ObsidianWriter.generateFileName_at (clock env called) in
  let answer :=
    network env called
      (notes_request (ObsidianWriter.apiUrl this)
         (string_value (ObsidianWriter.apiToken this))
         (ObsidianWriter.vaultName this) fileName content) in
  exists (o : Outcome) (w' : World H),
    ObsidianWriter.sendToObsidian this content env w
    = (Normal (Fulfilled o), w')
    /\ (success o = true <-> exists r, answer = Fulfilled r /\ ok r = true)
    /\ (success o = true ->
        message o = lit "Note '" ++ fileName
                    ++ lit "' created in Obsidian successfully.")
    /\ (forall r t, answer = Fulfilled r -> ok r = false ->
          text r = Fulfilled t ->
          o = mkOutcome false
                (lit "Failed to create note in Obsidian. HTTP "
                 ++ String_of_nat (status r) ++ lit ": " ++ t))
    /\ (forall r e, answer = Fulfilled r -> ok r = false ->
          text r = Rejected e ->
          o = mkOutcome false
                (lit "Network or other error: " ++ Js.message e))
    /\ (forall e, answer = Rejected e ->
          o = mkOutcome false
                (lit "Network or other error: " ++ Js.message e)).
Proof.
  intros Hconf called fileName answer. subst answer fileName called.
  unfold configured in Hconf. apply andb_true_iff in Hconf.
  destruct Hconf as [Hv Ht].
  unfold ObsidianWriter.sendToObsidian, ObsidianWriter.generateFileName,
    async, try_catch, bind, fetch, await, new_Date, notes_request.
  rewrite Hv, Ht. cbn.
  destruct (network env _ _) as [r | e] eqn:Enet; cbn.
  - destruct (ok r) eqn:Eok; cbn.
    + eexists _, _. split; [reflexivity |]. cbn.
      split; [split; [intros _; now exists r | reflexivity] |].
      split; [reflexivity |].
      split; [intros r' t [= <-]; congruence |].
      split; [intros r' e [= <-]; congruence | discriminate].
    + destruct (text r) as [t | e] eqn:Etext; cbn;
        eexists _, _; (split; [reflexivity |]); cbn.
      all: split;
        [split; [discriminate | intros (r' & [= <-] & Hok); congruence] |].
      all: split; [discriminate |].
      * split; [intros r' t' [= <-] _ Ht'; rewrite Etext in Ht';
                now injection Ht' as <- |].
        split; [intros r' e' [= <-] _ Ht'; rewrite Etext in Ht';
                discriminate | discriminate].
      * split; [intros r' t' [= <-] _ Ht'; rewrite Etext in Ht';
                discriminate |].
        split; [intros r' e' [= <-] _ Ht'; rewrite Etext in Ht';
                now injection Ht' as <- | discriminate].
  - eexists _, _. split; [reflexivity |]. cbn.
    split; [split; [discriminate | intros (r' & Hr & _); discriminate] |].
    split; [discriminate |].
    split; [discriminate |]. split; [discriminate |].
    now intros e' [= <-].
Qed.

Lemma sendToObsidian_outcome_witness :
  exists (o : Outcome) (w' : World unit),
    ObsidianWriter.sendToObsidian Sample.obsidian (lit "hello") Sample.env
      (mkWorld [] tt)
    = (Normal (Fulfilled o), w')
    /\ o = mkOutcome false
             (lit "Failed to create note in Obsidian. HTTP 404: Not Found").
Proof.
  destruct (@sendToObsidian_outcome unit Sample.obsidian (lit "hello")
              Sample.env (mkWorld [] tt) eq_refl)
    as (o & w' & Hrun & _ & _ & Hrefused & _).
  exists o, w'. split; [exact Hrun |].
  exact (Hrefused Sample.not_found (lit "Not Found")
           eq_refl eq_refl eq_refl).
Defined.

(** X5. The probe of a configured Obsidian client succeeds exactly when
    the local server answered with a success status. When [fetch] itself
    fails, the failure message names the client's port and says nothing of
    the underlying error; a client built without a port names 27123. *)
Theorem testConnection_succeeds_iff_server_accepts (H : Type)
  (this : ObsidianWriter.t) (env : Env) (w : World H) :
  configured this = true ->
  let answer :=
    network env (trace w ++ [EvCall ObsidianWriter_testConnection])
      (probe_request (ObsidianWriter.apiUrl this)
                     (string_value (ObsidianWriter.apiToken this))) in
  exists (o : Outcome) (w' : World H),
    ObsidianWriter.testConnection this env w = (Normal (Fulfilled o), w')
    /\ (success o = true <-> exists r, answer = Fulfilled r /\ ok r = true)
    /\ (forall e, answer = Rejected e ->
          o = mkOutcome false
                (lit "Network error. Is Obsidian running and the API plugin enabled on port "
                 ++ ObsidianWriter.port this ++ lit "?"))
    /\ (forall vault token,
          ObsidianWriter.port (ObsidianWriter.new vault token None)
          = lit "27123").
Proof.
  intros Hconf answer. subst answer.
  unfold configured in Hconf. apply andb_true_iff in Hconf.
  destruct Hconf as [Hv Ht].
  unfold ObsidianWriter.testConnection, async, try_catch, bind, fetch,
    await, probe_request.
  rewrite Hv, Ht. cbn.
  destruct (network env _ _) as [r | e] eqn:Enet; cbn.
  - destruct (ok r) eqn:Eok; cbn;
      eexists _, _; (split; [reflexivity |]); cbn.
    + split; [split; [intros _; now exists r | reflexivity] |].
      split; [discriminate | reflexivity].
    + split; [split; [discriminate
                     | intros (r' & [= <-] & Hok); congruence] |].
      split; [discriminate | reflexivity].
  - eexists _, _. split; [reflexivity |]. cbn.
    split; [split; [discriminate | intros (r' & Hr & _); discriminate] |].
    split; [reflexivity | reflexivity].
Qed.

Lemma testConnection_succeeds_iff_server_accepts_witness :
  exists (o : Outcome) (w' : World unit),
    ObsidianWriter.testConnection Sample.obsidian
      (mkEnv (fun _ _ => Rejected (mkError (lit "Failed to fetch")))
             (fun _ => Sample.now) (fun _ => []))
      (mkWorld [] tt)
    = (Normal (Fulfilled o), w')
    /\ o = mkOutcome false
             (lit "Network error. Is Obsidian running and the API plugin enabled on port 27123?").
Proof.
  destruct (@testConnection_succeeds_iff_server_accepts unit Sample.obsidian
              (mkEnv (fun _ _ => Rejected (mkError (lit "Failed to fetch")))
                     (fun _ => Sample.now) (fun _ => []))
              (mkWorld [] tt) eq_refl)
    as (o & w' & Hrun & _ & Hdown & _).
  exists o, w'. split; [exact Hrun |].
  exact (Hdown (mkError (lit "Failed to fetch")) eq_refl).
Defined.

(** X6. Testing the Flomo connection is a send: from the moment the test
    is entered it behaves exactly as [sendToFlomo] of the test note (the
    tag line, the fixed sentence and the locale rendering of the current
    time). With a URL set it therefore posts that note to the webhook, one
    request, as a real memo; with no URL it sends nothing. *)
Theorem Flomo_testConnection_is_a_send (H : Type) (this : FlomoAPI.t)
  (env : Env) (w : World H) :
  let entered := trace w ++ [EvCall FlomoAPI_testConnection] in
  let note := test_note (toLocaleString env (clock env entered)) in
  FlomoAPI.testConnection this env w
  = FlomoAPI.sendToFlomo this note env (mkWorld entered (heap w))
  /\ requests (trace (snd (FlomoAPI.testConnection this env w)))
     = requests (trace w)
       ++ (if truthy_opt (FlomoAPI.api_url this)
           then [webhook_request (string_value (FlomoAPI.api_url this))
                                 note]
           else []).
Proof.
  intros entered note.
  destruct (sendToFlomo_run this note env entered)
    as (o & sent & Hsent & Hrun).
  pose proof (Hrun H (mkWorld entered (heap w)) eq_refl) as E.
  assert (Htest : FlomoAPI.testConnection this env w
                  = FlomoAPI.sendToFlomo this note env
                      (mkWorld entered (heap w))).
  { unfold FlomoAPI.testConnection, async, bind, new_Date,
      Date_toLocaleString; cbv beta iota zeta; cbn [trace heap].
    fold entered. unfold test_note in note. fold note.
    rewrite E. reflexivity. }
  split; [exact Htest |].
  rewrite Htest, E. cbn [snd trace]. unfold entered.
  rewrite !requests_app. cbn. rewrite Hsent, app_nil_r.
  destruct (truthy_opt (FlomoAPI.api_url this)); cbn; reflexivity.
Qed.

(** *** What a submission sends *)

Lemma requests_call_fetches (c : ClientCall) (sent : list Request) :
  requests (EvCall c :: map EvFetch sent) = sent.
Proof.
  cbn. induction sent as [| r sent IH]; cbn; [reflexivity | now rewrite IH].
Qed.

(** The dispatch of [submitNote], with the events it leaves spelled out. *)
Lemma submissionPromises_sent (content : jsstring) (toFlomo toObsidian : bool)
  (env : Env) (tr : list Event) (fa : FlomoAPI.t) (oa : ObsidianWriter.t) :
  let ev1 := flomo_events fa content in
  let tr2 := tr ++ (if toFlomo then ev1 else []) in
  let ev2 := obsidian_events oa content env tr2 in
  exists o1 o2 : Outcome,
    (forall (H : Type) (w : World H), trace w = tr ->
        FlomoAPI.sendToFlomo fa content env w
        = (Normal (Fulfilled o1), mkWorld (tr ++ ev1) (heap w)))
    /\ (forall (H : Type) (w : World H), trace w = tr2 ->
          ObsidianWriter.sendToObsidian oa content env w
          = (Normal (Fulfilled o2), mkWorld (tr2 ++ ev2) (heap w)))
    /\ forall w : World Popup.Page,
         trace w = tr ->
         Popup.flomoAPI (Popup.state (heap w)) = Some fa ->
         Popup.obsidianAPI (Popup.state (heap w)) = Some oa ->
         Popup.submissionPromises content toFlomo toObsidian env w
         = (Normal (map (@Fulfilled Outcome)
                        (selected toFlomo toObsidian o1 o2)),
            mkWorld (tr ++ List.concat (selected toFlomo toObsidian ev1 ev2))
                    (heap w)).
Proof.
  intros ev1 tr2 ev2.
  destruct (sendToFlomo_run fa content env tr) as (o1 & sent1 & Hs1 & Hf).
  destruct (sendToObsidian_run oa content env tr2)
    as (o2 & sent2 & Hs2 & Ho).
  assert (E1 : EvCall (FlomoAPI_sendToFlomo content) :: map EvFetch sent1
               = ev1) by (now rewrite Hs1).
  assert (E2 : EvCall (ObsidianWriter_sendToObsidian content)
               :: map EvFetch sent2 = ev2) by (now rewrite Hs2).
  rewrite E1 in Hf. rewrite E2 in Ho. clear Hs1 Hs2 E1 E2 sent1 sent2.
  exists o1, o2. split; [exact Hf |]. split; [exact Ho |].
  intros [t [els st]] Htr Hfa Hoa. cbn in Htr, Hfa, Hoa. subst t.
  unfold Popup.submissionPromises, Popup.state_flomoAPI,
    Popup.state_obsidianAPI, bind, get_heap, ret, selected.
  pose proof (Hf _ (mkWorld tr (Popup.mkPage els st)) eq_refl) as F1.
  subst tr2.
  destruct toFlomo, toObsidian; cbv beta iota;
    cbn [trace heap Popup.state app List.concat map] in *;
    rewrite ?Hfa, ?Hoa; cbv beta iota.
  - rewrite F1.
    pose proof (Ho _ (mkWorld (tr ++ ev1) (Popup.mkPage els st)) eq_refl)
      as F2.
    cbn [trace heap Popup.state] in *. rewrite Hoa. cbv beta iota.
    rewrite F2. rewrite !app_nil_r, <- app_assoc. reflexivity.
  - rewrite F1. rewrite !app_nil_r. reflexivity.
  - pose proof (Ho _ (mkWorld tr (Popup.mkPage els st))
                  (eq_sym (app_nil_r tr))) as F2.
    cbn [trace heap] in F2. rewrite F2. rewrite !app_nil_r. reflexivity.
  - rewrite !app_nil_r. reflexivity.
Qed.

(** A started submission from end to end: the two sends as they would run
    alone, and what [submitNote] leaves. *)
Lemma submitNote_full (env : Env) (w : World Popup.Page) (fa : FlomoAPI.t)
  (oa : ObsidianWriter.t) :
  started w fa oa ->
  let els := Popup.elements (heap w) in
  let content := trim (Popup.memoContent_value els) in
  let toFlomo := Popup.sendToFlomo_checked els in
  let toObsidian := Popup.sendToObsidian_checked els in
  let ev1 := flomo_events fa content in
  let tr2 := trace w ++ (if toFlomo then ev1 else []) in
  let ev2 := obsidian_events oa content env tr2 in
  exists o1 o2 : Outcome,
    (forall (H : Type) (w1 : World H), trace w1 = trace w ->
        FlomoAPI.sendToFlomo fa content env w1
        = (Normal (Fulfilled o1), mkWorld (trace w ++ ev1) (heap w1)))
    /\ (forall (H : Type) (w2 : World H), trace w2 = tr2 ->
          ObsidianWriter.sendToObsidian oa content env w2
          = (Normal (Fulfilled o2), mkWorld (tr2 ++ ev2) (heap w2)))
    /\ Popup.submissionPromises content toFlomo toObsidian env w
       = (Normal (map (@Fulfilled Outcome)
                      (selected toFlomo toObsidian o1 o2)),
          mkWorld (trace w
                   ++ List.concat (selected toFlomo toObsidian ev1 ev2))
                  (heap w))
    /\ Popup.submitNote env w
       = (Normal tt,
          mkWorld
            (trace w ++ List.concat (selected toFlomo toObsidian ev1 ev2))
            (Popup.mkPage
               (after_submission els (selected toFlomo toObsidian o1 o2))
               (Popup.state (heap w)))).
Proof.
  intros Hstarted els content toFlomo toObsidian ev1 tr2 ev2.
  destruct (submissionPromises_sent content toFlomo toObsidian env (trace w)
              fa oa) as (o1 & o2 & Hf & Ho & Hps).
  exists o1, o2. split; [exact Hf |]. split; [exact Ho |].
  split.
  { apply Hps; [reflexivity | |]; apply Hstarted. }
  apply (@submitNote_run env w fa oa (selected toFlomo toObsidian o1 o2)
           (List.concat (selected toFlomo toObsidian ev1 ev2)) Hstarted).
  intros w0 Htr Hst. apply Hps; [exact Htr | |]; rewrite Hst; apply Hstarted.
Qed.

Lemma requests_selected (toFlomo toObsidian : bool) (c1 c2 : ClientCall)
  (sent1 sent2 : list Request) :
  requests (List.concat (selected toFlomo toObsidian
                           (EvCall c1 :: map EvFetch sent1)
                           (EvCall c2 :: map EvFetch sent2)))
  = (if toFlomo then sent1 else []) ++ (if toObsidian then sent2 else []).
Proof.
  unfold selected. rewrite concat_app, requests_app.
  f_equal; [destruct toFlomo | destruct toObsidian]; cbn [List.concat];
    rewrite ?app_nil_r, ?requests_call_fetches; reflexivity.
Qed.

(** X7. A started submission calls [fetch] once for each destination that
    is both selected and configured, Flomo's request first, and not at all
    for a destination that is unselected or lacks its settings. The Flomo
    request carries the trimmed note to the webhook URL; the Obsidian
    request carries it to the local server under the generated name. *)
Theorem submitNote_requests (env : Env) (w : World Popup.Page)
  (fa : FlomoAPI.t) (oa : ObsidianWriter.t) :
  started w fa oa ->
  let els := Popup.elements (heap w) in
  let content := trim (Popup.memoContent_value els) in
  let toFlomo := Popup.sendToFlomo_checked els in
  let toObsidian := Popup.sendToObsidian_checked els in
  let sent :=
    submission_sent fa oa content toFlomo toObsidian env (trace w) in
  requests (trace (snd (Popup.submitNote env w))) = requests (trace w) ++ sent
  /\ List.length sent
     = Nat.b2n (toFlomo && truthy_opt (FlomoAPI.api_url fa))
       + Nat.b2n (toObsidian && configured oa)
  /\ (forall r, In r sent ->
        method r = lit "POST"
        /\ exists props,
             body r = Some (JObject props)
             /\ lookup (lit "content") props = Some (JString content)).
Proof.
  intros Hstarted els content toFlomo toObsidian sent.
  destruct (submitNote_full env Hstarted) as (o1 & o2 & _ & _ & _ & Hrun).
  fold els content toFlomo toObsidian in Hrun.
  rewrite Hrun. cbn [snd trace].
  rewrite requests_app.
  unfold flomo_events, obsidian_events. rewrite requests_selected.
  subst sent. unfold submission_sent, flomo_events.
  split; [reflexivity |].
  unfold flomo_sent, obsidian_sent.
  split.
  - destruct toFlomo, toObsidian,
      (truthy_opt (FlomoAPI.api_url fa)), (configured oa); reflexivity.
  - intros r Hin. apply in_app_or in Hin.
    destruct Hin as [Hin | Hin].
    + destruct toFlomo; [| contradiction].
      destruct (truthy_opt (FlomoAPI.api_url fa)); [| contradiction].
      destruct Hin as [<- | []].
      split; [reflexivity |]. eexists. split; reflexivity.
    + destruct toObsidian; [| contradiction].
      destruct (configured oa); [| contradiction].
      destruct Hin as [<- | []].
      split; [reflexivity |]. eexists. split; reflexivity.
Qed.

Lemma submitNote_requests_witness :
  requests (trace (snd (Popup.submitNote Sample.env
                          (Sample.world (lit " hello world ") true true))))
  = [webhook_request Sample.webhook (lit "hello world");
     notes_request (lit "http://127.0.0.1:27123") (lit "secret")
       (lit "Notes") (lit "2024-01-05_09-03-07.md") (lit "hello world")].
Proof.
  exact (proj1 (submitNote_requests Sample.env
                  (@mkStarted (Sample.world (lit " hello world ") true true)
                              Sample.flomo Sample.obsidian
                              eq_refl eq_refl eq_refl eq_refl))).
Defined.

(** X8. Every started submission ends the same way whatever its outcomes:
    the status line is cleared and the result box shown, holding one
    success block if some destination succeeded followed by one error block
    if some destination failed (so one or two blocks, each listing its
    messages in destination order); the submit button is enabled again and
    carries the label of the current selection; the checkboxes and the API
    handlers are untouched. *)
Theorem submitNote_final_page (env : Env) (w : World Popup.Page)
  (fa : FlomoAPI.t) (oa : ObsidianWriter.t) :
  started w fa oa ->
  let els := Popup.elements (heap w) in
  let content := trim (Popup.memoContent_value els) in
  let toFlomo := Popup.sendToFlomo_checked els in
  let toObsidian := Popup.sendToObsidian_checked els in
  exists (outcomes : list Outcome) (w1 w' : World Popup.Page),
    Popup.submissionPromises content toFlomo toObsidian env w
    = (Normal (map (@Fulfilled Outcome) outcomes), w1)
    /\ Popup.submitNote env w = (Normal tt, w')
    /\ let els' := Popup.elements (heap w') in
       Popup.statusMessage_textContent els' = []
       /\ Popup.resultBox_hidden els' = false
       /\ Popup.resultBox_children els' = result_blocks outcomes
       /\ List.length (Popup.resultBox_children els')
          = Nat.b2n (existsb success outcomes)
            + Nat.b2n (existsb (fun o => negb (success o)) outcomes)
       /\ 1 <= List.length (Popup.resultBox_children els') <= 2
       /\ Popup.submitButton_disabled els' = false
       /\ Popup.submitButton_textContent els'
          = submit_label toFlomo toObsidian
       /\ Popup.sendToFlomo_checked els' = toFlomo
       /\ Popup.sendToObsidian_checked els' = toObsidian
       /\ Popup.state (heap w') = Popup.state (heap w).
Proof.
  intros Hstarted els content toFlomo toObsidian.
  destruct (submitNote_full env Hstarted) as (o1 & o2 & _ & _ & Hps & Hrun).
  fold els content toFlomo toObsidian in Hps, Hrun.
  eexists _, _, _. split; [exact Hps |]. split; [exact Hrun |].
  cbn [heap Popup.elements Popup.state after_submission
       Popup.statusMessage_textContent Popup.resultBox_hidden
       Popup.resultBox_children Popup.submitButton_disabled
       Popup.submitButton_textContent Popup.sendToFlomo_checked
       Popup.sendToObsidian_checked].
  pose proof (started_destination Hstarted) as Hdest.
  fold els toFlomo toObsidian in Hdest.
  assert (Hblocks :
            List.length (result_blocks (selected toFlomo toObsidian o1 o2))
            = Nat.b2n (existsb success (selected toFlomo toObsidian o1 o2))
              + Nat.b2n (existsb (fun o => negb (success o))
                                 (selected toFlomo toObsidian o1 o2))
            /\ 1 <= List.length
                      (result_blocks (selected toFlomo toObsidian o1 o2))
               <= 2).
  { unfold result_blocks, successMessages, errorMessages, selected.
    destruct toFlomo, toObsidian; try discriminate;
      destruct (success o1) eqn:S1; destruct (success o2) eqn:S2;
      cbn; rewrite ?S1, ?S2; cbn; rewrite ?S1, ?S2; cbn; lia. }
  destruct Hblocks as [Hcount Hbounds].
  repeat split; try reflexivity; try exact Hcount; try apply Hbounds.
  subst toFlomo toObsidian.
  destruct (Popup.sendToFlomo_checked els),
    (Popup.sendToObsidian_checked els); try discriminate; reflexivity.
Qed.

Lemma submitNote_final_page_witness :
  exists (outcomes : list Outcome) (w1 w' : World Popup.Page),
    Popup.submissionPromises (trim (lit " hello world ")) true true
      Sample.env (Sample.world (lit " hello world ") true true)
    = (Normal (map (@Fulfilled Outcome) outcomes), w1)
    /\ Popup.submitNote Sample.env
         (Sample.world (lit " hello world ") true true)
       = (Normal tt, w')
    /\ Popup.resultBox_children (Popup.elements (heap w'))
       = result_blocks outcomes
    /\ Popup.submitButton_disabled (Popup.elements (heap w')) = false.
Proof.
  destruct (submitNote_final_page Sample.env
              (@mkStarted (Sample.world (lit " hello world ") true true)
                          Sample.flomo Sample.obsidian
                          eq_refl eq_refl eq_refl eq_refl))
    as (outcomes & w1 & w' & Hps & Hrun & _ & _ & Hkids & _ & _ & Hbtn & _).
  exists outcomes, w1, w'. repeat split; assumption.
Defined.

(** A refusal whose body can be read, seen from any world. *)
Lemma sendToObsidian_refused (H : Type) (this : ObsidianWriter.t)
  (content : jsstring) (env : Env) (w : World H) (r : Response)
  (t : jsstring) :
  configured this = true ->
  network env (trace w ++ [EvCall (ObsidianWriter_sendToObsidian content)])
    (notes_request (ObsidianWriter.apiUrl this)
       (string_value (ObsidianWriter.apiToken this))
       (ObsidianWriter.vaultName this)
       (ObsidianWriter.generateFileName_at
          (clock env
             (trace w ++ [EvCall (ObsidianWriter_sendToObsidian content)])))
       content)
  = Fulfilled r ->
  ok r = false ->
  text r = Fulfilled t ->
  fst (ObsidianWriter.sendToObsidian this content env w)
  = Normal (Fulfilled
              (mkOutcome false
                 (lit "Failed to create note in Obsidian. HTTP "
                  ++ String_of_nat (status r) ++ lit ": " ++ t))).
Proof.
  intros Hconf Hnet Hok Htext.
  unfold configured in Hconf. apply andb_true_iff in Hconf.
  destruct Hconf as [Hv Ht].
  unfold ObsidianWriter.sendToObsidian, ObsidianWriter.generateFileName,
    async, try_catch, bind, fetch, await, new_Date.
  unfold notes_request in Hnet.
  rewrite Hv, Ht. cbn. rewrite Hnet. cbn. rewrite Hok. cbn.
  rewrite Htext. reflexivity.
Qed.

(** X9. What the local server writes in the body of a refusal reaches the
    page as markup: in a submission to Obsidian alone that the server
    refuses, the string assigned to the error block's [innerHTML] ends with
    the response text exactly as received, nothing escaped. *)
Theorem refusal_text_is_assigned_to_innerHTML (env : Env)
  (w : World Popup.Page) (fa : FlomoAPI.t) (oa : ObsidianWriter.t)
  (r : Response) (t : jsstring) :
  started w fa oa ->
  let els := Popup.elements (heap w) in
  let content := trim (Popup.memoContent_value els) in
  let called :=
    trace w ++ [EvCall (ObsidianWriter_sendToObsidian content)] in
  Popup.sendToFlomo_checked els = false ->
  configured oa = true ->
  network env called
    (notes_request (ObsidianWriter.apiUrl oa)
       (string_value (ObsidianWriter.apiToken oa))
       (ObsidianWriter.vaultName oa)
       (ObsidianWriter.generateFileName_at (clock env called)) content)
  = Fulfilled r ->
  ok r = false ->
  text r = Fulfilled t ->
  Popup.resultBox_children
    (Popup.elements (heap (snd (Popup.submitNote env w))))
  = [Popup.mkBlock (lit "result-block error")
       (lit "<strong>Error:</strong><br>"
        ++ lit "Failed to create note in Obsidian. HTTP "
        ++ String_of_nat (status r) ++ lit ": " ++ t)].
Proof.
  intros Hstarted els content called HnoFlomo Hconf Hnet Hok Htext.
  destruct (submitNote_full env Hstarted) as (o1 & o2 & _ & Ho & _ & Hrun).
  fold els content in Ho, Hrun.
  pose proof (started_destination Hstarted) as Hdest. fold els in Hdest.
  rewrite HnoFlomo in Ho, Hrun, Hdest. cbn [orb] in Hdest.
  rewrite Hdest in Hrun.
  assert (Ho2 : o2 = mkOutcome false
                       (lit "Failed to create note in Obsidian. HTTP "
                        ++ String_of_nat (status r) ++ lit ": " ++ t)).
  { pose proof (Ho unit (mkWorld (trace w ++ []) tt) eq_refl) as E.
    pose proof (@sendToObsidian_refused unit oa content env
                  (mkWorld (trace w) tt) r t Hconf Hnet Hok Htext) as F.
    rewrite app_nil_r in E. rewrite E in F. cbn [fst] in F.
    now injection F. }
  rewrite Hrun, Ho2. reflexivity.
Qed.

Lemma refusal_text_is_assigned_to_innerHTML_witness :
  Popup.resultBox_children
    (Popup.elements
       (heap (snd (Popup.submitNote Sample.env
                     (Sample.world (lit "hello") false true)))))
  = [Popup.mkBlock (lit "result-block error")
       (lit "<strong>Error:</strong><br>Failed to create note in Obsidian. HTTP 404: Not Found")].
Proof.
  exact (@refusal_text_is_assigned_to_innerHTML Sample.env
           (Sample.world (lit "hello") false true)
           Sample.flomo Sample.obsidian Sample.not_found (lit "Not Found")
           (@mkStarted (Sample.world (lit "hello") false true)
                       Sample.flomo Sample.obsidian
                       eq_refl eq_refl eq_refl eq_refl)
           eq_refl eq_refl eq_refl eq_refl eq_refl).
Defined.

(** *** Configuration *)

(** [saveConfig], spelled out: what it leaves when the storage takes the
    configuration and when it does not. *)
Lemma saveConfig_run (env : Env) (w : World Settings.Window) :
  let window := heap w in
  let els := Popup.elements (Settings.page window) in
  let st := Popup.state (Settings.page window) in
  let config := typed_config (Settings.inputs window) els in
  Settings.saveConfig env w
  = (Normal tt,
     mkWorld (trace w)
       (match Settings.storage_fault (Settings.storage window) with
        | None =>
            Settings.mkWindow
              (Popup.mkPage
                 (with_status (lit "Settings saved!") (lit "success") els)
                 (initialised config))
              (Settings.inputs window)
              (Settings.mkStorage (Some config) None)
        | Some _ =>
            Settings.mkWindow
              (Popup.mkPage
                 (with_status (lit "Error saving settings.") (lit "error")
                              els)
                 (Popup.mkState config (Popup.flomoAPI st)
                                (Popup.obsidianAPI st)))
              (Settings.inputs window)
              (Settings.storage window)
        end)).
Proof.
  destruct w as [tr [[els st] i [stored fault]]].
  destruct fault as [e |]; reflexivity.
Qed.

(** [loadConfigAndSetup], spelled out likewise. *)
Lemma loadConfigAndSetup_run (env : Env) (w : World Settings.Window) :
  let window := heap w in
  let els := Popup.elements (Settings.page window) in
  let store := Settings.storage window in
  Settings.loadConfigAndSetup env w
  = (Normal tt,
     mkWorld (trace w)
       (match Settings.storage_fault store with
        | None =>
            let config := match Settings.stored_config store with
                          | Some config => config
                          | None => Settings.empty_config
                          end in
            let toFlomo :=
              Settings.or_default (Popup.sendToFlomo config) true in
            let toObsidian :=
              Settings.or_default (Popup.sendToObsidian config) false in
            Settings.mkWindow
              (Popup.mkPage
                 (Popup.mkElements
                    (Popup.memoContent_value els)
                    (negb toFlomo && negb toObsidian)
                    (submit_label toFlomo toObsidian)
                    (Popup.statusMessage_textContent els)
                    (Popup.statusMessage_className els)
                    (Popup.resultBox_hidden els)
                    (Popup.resultBox_children els)
                    toFlomo toObsidian)
                 (initialised config))
              (Settings.mkInputs
                 (Settings.or_empty (Popup.flomoUrl config))
                 (Settings.or_empty (Popup.obsidianVault config))
                 (Settings.or_empty (Popup.obsidianToken config))
                 (Settings.settingsPanel_hidden (Settings.inputs window)))
              store
        | Some _ =>
            Settings.mkWindow
              (Popup.mkPage
                 (with_status (lit "Error loading configuration.")
                              (lit "error") els)
                 (Popup.state (Settings.page window)))
              (Settings.inputs window)
              store
        end)).
Proof.
  destruct w as [tr [[els st] i [stored fault]]].
  destruct fault as [e |]; [reflexivity |].
  destruct stored as [config |]; reflexivity.
Qed.

Lemma or_empty_Some (s : jsstring) : Settings.or_empty (Some s) = s.
Proof. destruct s; reflexivity. Qed.

(** X10. Settings survive the popup being closed. After [saveConfig] has
    stored the configuration, [loadConfigAndSetup] in any popup on that
    storage (whatever its fields hold, whatever its handlers are) puts the
    trimmed saved values back in the three settings fields, restores both
    checkboxes, and leaves exactly the application state, configuration
    and handlers, that the save left. *)
Theorem saved_settings_are_restored (env env' : Env)
  (w w2 : World Settings.Window) :
  Settings.storage_fault (Settings.storage (heap w)) = None ->
  let w1 := snd (Settings.saveConfig env w) in
  Settings.storage (heap w2) = Settings.storage (heap w1) ->
  let w3 := snd (Settings.loadConfigAndSetup env' w2) in
  let i := Settings.inputs (heap w) in
  let els := Popup.elements (Settings.page (heap w)) in
  let els3 := Popup.elements (Settings.page (heap w3)) in
  fst (Settings.loadConfigAndSetup env' w2) = Normal tt
  /\ Settings.flomoUrlInput_value (Settings.inputs (heap w3))
     = trim (Settings.flomoUrlInput_value i)
  /\ Settings.obsidianVaultInput_value (Settings.inputs (heap w3))
     = trim (Settings.obsidianVaultInput_value i)
  /\ Settings.obsidianTokenInput_value (Settings.inputs (heap w3))
     = trim (Settings.obsidianTokenInput_value i)
  /\ Popup.sendToFlomo_checked els3 = Popup.sendToFlomo_checked els
  /\ Popup.sendToObsidian_checked els3 = Popup.sendToObsidian_checked els
  /\ Popup.state (Settings.page (heap w3))
     = Popup.state (Settings.page (heap w1))
  /\ Settings.storage (heap w3) = Settings.storage (heap w1).
Proof.
  intros Hfault w1 Hstore w3 i els els3.
  subst w1 w3 els3. rewrite saveConfig_run in Hstore |- *.
  rewrite loadConfigAndSetup_run. cbn [fst snd heap] in *.
  rewrite Hfault in Hstore |- *. cbn [Settings.storage] in Hstore.
  rewrite Hstore. cbn. fold i els.
  rewrite !or_empty_Some. repeat split; reflexivity.
Qed.

Lemma saved_settings_are_restored_witness :
  let saved :=
    snd (Settings.saveConfig Sample.env
           (SampleSettings.fresh SampleSettings.empty_store)) in
  let restored :=
    snd (Settings.loadConfigAndSetup Sample.env
           (SampleSettings.reopened (Settings.storage (heap saved)))) in
  Settings.flomoUrlInput_value (Settings.inputs (heap restored))
  = lit "https://flomoapp.com/iwh/abc/def/"
  /\ Settings.obsidianVaultInput_value (Settings.inputs (heap restored))
     = lit "Notes"
  /\ Settings.obsidianTokenInput_value (Settings.inputs (heap restored))
     = lit "secret"
  /\ Popup.state (Settings.page (heap restored))
     = Popup.state (Settings.page (heap saved)).
Proof.
  intros saved restored.
  destruct (@saved_settings_are_restored Sample.env Sample.env
              (SampleSettings.fresh SampleSettings.empty_store)
              (SampleSettings.reopened (Settings.storage (heap saved)))
              eq_refl eq_refl)
    as (_ & Hurl & Hvault & Htoken & _ & _ & Hstate & _).
  repeat split; assumption.
Defined.

(** X11. When the storage refuses the configuration, [saveConfig] still
    completes: it reports "Error saving settings.", nothing is stored, and
    [state.config] already holds the new values while both API handlers are
    the ones from before. A note submitted afterwards is therefore sent by
    the previous handlers, to the previous URL and vault, although the
    fields and [state.config] show the new settings. *)
Theorem failed_save_keeps_the_old_handlers (env env' : Env)
  (w : World Settings.Window) (e : Error) (fa : FlomoAPI.t)
  (oa : ObsidianWriter.t) (value : jsstring) :
  Settings.storage_fault (Settings.storage (heap w)) = Some e ->
  let st := Popup.state (Settings.page (heap w)) in
  let els := Popup.elements (Settings.page (heap w)) in
  let toFlomo := Popup.sendToFlomo_checked els in
  let toObsidian := Popup.sendToObsidian_checked els in
  Popup.flomoAPI st = Some fa ->
  Popup.obsidianAPI st = Some oa ->
  truthy (trim value) = true ->
  toFlomo || toObsidian = true ->
  let w1 := snd (Settings.saveConfig env w) in
  let st1 := Popup.state (Settings.page (heap w1)) in
  let submitted := Settings.lift Popup.submitNote env' (typing value w1) in
  fst (Settings.saveConfig env w) = Normal tt
  /\ Popup.config st1 = typed_config (Settings.inputs (heap w)) els
  /\ Popup.flomoAPI st1 = Some fa
  /\ Popup.obsidianAPI st1 = Some oa
  /\ Settings.storage (heap w1) = Settings.storage (heap w)
  /\ Popup.elements (Settings.page (heap w1))
     = with_status (lit "Error saving settings.") (lit "error") els
  /\ fst submitted = Normal tt
  /\ requests (trace (snd submitted))
     = requests (trace w)
       ++ submission_sent fa oa (trim value) toFlomo toObsidian env'
            (trace w).
Proof.
  intros Hfault st els toFlomo toObsidian Hfa Hoa Hvalue Hdest w1 st1
    submitted.
  subst submitted st1 w1. rewrite saveConfig_run.
  cbn [fst snd]. rewrite Hfault. fold st els.
  cbn [heap Settings.page Settings.storage Popup.state Popup.config
       Popup.flomoAPI Popup.obsidianAPI Popup.elements].
  repeat (split; [first [reflexivity | assumption] |]).
  unfold Settings.lift, typing.
  cbn [trace heap Settings.page Settings.inputs Settings.storage
       Popup.elements Popup.state].
  match goal with
  | |- context [Popup.submitNote env' ?pw] => set (pw0 := pw)
  end.
  assert (Hstarted : started pw0 fa oa).
  { constructor; [exact Hvalue | exact Hdest | exact Hfa | exact Hoa]. }
  destruct (submitNote_full env' Hstarted) as (o1 & o2 & _ & _ & _ & Hrun).
  rewrite Hrun. cbn [fst snd trace heap].
  split; [reflexivity |].
  rewrite requests_app. unfold flomo_events, obsidian_events.
  rewrite requests_selected. reflexivity.
Qed.

Lemma failed_save_keeps_the_old_handlers_witness :
  requests
    (trace (snd (Settings.lift Popup.submitNote Sample.env
                   (typing (lit "hello")
                      (snd (Settings.saveConfig Sample.env
                              SampleSettings.stale))))))
  = [webhook_request Sample.webhook (lit "hello")].
Proof.
  exact (proj2 (proj2 (proj2 (proj2 (proj2 (proj2 (proj2
           (@failed_save_keeps_the_old_handlers Sample.env Sample.env
              SampleSettings.stale
              (mkError (lit "QUOTA_BYTES quota exceeded"))
              Sample.flomo Sample.obsidian (lit "hello")
              eq_refl eq_refl eq_refl eq_refl eq_refl)))))))).
Defined.

(** X12. When the configuration cannot be read, [loadConfigAndSetup]
    completes and reports "Error loading configuration."; it installs no
    handler and fills in nothing: the application state, the settings
    fields, the checkboxes and the submit button are as they were. In a
    popup just opened the handlers therefore stay [null], and a note typed
    and submitted then is not sent: [submitNote] throws, leaving the submit
    button disabled. *)
Theorem failed_load_installs_nothing (env env' : Env)
  (w : World Settings.Window) (e : Error) (value : jsstring) :
  Settings.storage_fault (Settings.storage (heap w)) = Some e ->
  let els := Popup.elements (Settings.page (heap w)) in
  let st := Popup.state (Settings.page (heap w)) in
  let w1 := snd (Settings.loadConfigAndSetup env w) in
  let submitted := Settings.lift Popup.submitNote env' (typing value w1) in
  Settings.loadConfigAndSetup env w
  = (Normal tt,
     mkWorld (trace w)
       (Settings.mkWindow
          (Popup.mkPage
             (with_status (lit "Error loading configuration.") (lit "error")
                          els)
             st)
          (Settings.inputs (heap w))
          (Settings.storage (heap w))))
  /\ (Popup.flomoAPI st = None ->
      Popup.obsidianAPI st = None ->
      truthy (trim value) = true ->
      Popup.sendToFlomo_checked els || Popup.sendToObsidian_checked els
      = true ->
      fst submitted
      = Throw (Popup.TypeError_null
                 (if Popup.sendToFlomo_checked els
                  then "sendToFlomo" else "sendToObsidian"))
      /\ trace (snd submitted) = trace w
      /\ Popup.submitButton_disabled
           (Popup.elements (Settings.page (heap (snd submitted))))
         = true).
Proof.
  intros Hfault els st w1 submitted.
  assert (Hload : Settings.loadConfigAndSetup env w
                  = (Normal tt,
                     mkWorld (trace w)
                       (Settings.mkWindow
                          (Popup.mkPage
                             (with_status
                                (lit "Error loading configuration.")
                                (lit "error") els)
                             st)
                          (Settings.inputs (heap w))
                          (Settings.storage (heap w))))).
  { rewrite loadConfigAndSetup_run, Hfault. reflexivity. }
  split; [exact Hload |].
  intros Hfa Hoa Hvalue Hdest.
  subst submitted w1. rewrite Hload. cbn [snd].
  unfold Settings.lift, typing.
  cbn [trace heap Settings.page Settings.inputs Settings.storage
       Popup.elements Popup.state].
  match goal with
  | |- context [Popup.submitNote env' ?pw] => set (pw0 := pw)
  end.
  pose proof (submitNote_null_run env' pw0 Hvalue Hdest Hfa Hoa) as Hrun.
  rewrite Hrun. cbn [fst snd trace heap]. repeat split; reflexivity.
Qed.

Lemma failed_load_installs_nothing_witness :
  fst (Settings.lift Popup.submitNote Sample.env
         (typing (lit "hello")
            (snd (Settings.loadConfigAndSetup Sample.env
                    (SampleSettings.fresh SampleSettings.failing_store)))))
  = Throw (Popup.TypeError_null "sendToFlomo").
Proof.
  exact (proj1 (proj2
           (@failed_load_installs_nothing Sample.env Sample.env
              (SampleSettings.fresh SampleSettings.failing_store)
              (mkError (lit "QUOTA_BYTES quota exceeded")) (lit "hello")
              eq_refl)
           eq_refl eq_refl eq_refl eq_refl)).
Defined.

(** X13. The first run. With nothing stored, [loadConfigAndSetup] leaves
    the settings fields empty, selects Flomo alone and labels the enabled
    button "Submit to Flomo". A note submitted then, before any setting is
    entered, sends nothing: the result box shows the single error
    "Flomo API URL is not set." and the note stays in the input as typed. *)
Theorem first_run_submission_reports_the_missing_url (env : Env)
  (w : World Settings.Window) (value : jsstring) :
  Settings.stored_config (Settings.storage (heap w)) = None ->
  Settings.storage_fault (Settings.storage (heap w)) = None ->
  truthy (trim value) = true ->
  let w1 := snd (Settings.loadConfigAndSetup env w) in
  let els1 := Popup.elements (Settings.page (heap w1)) in
  let submitted := Settings.lift Popup.submitNote env (typing value w1) in
  let els2 := Popup.elements (Settings.page (heap (snd submitted))) in
  Settings.inputs (heap w1)
  = Settings.mkInputs [] [] []
      (Settings.settingsPanel_hidden (Settings.inputs (heap w)))
  /\ Popup.sendToFlomo_checked els1 = true
  /\ Popup.sendToObsidian_checked els1 = false
  /\ Popup.submitButton_disabled els1 = false
  /\ Popup.submitButton_textContent els1 = lit "Submit to Flomo"
  /\ fst submitted = Normal tt
  /\ requests (trace (snd submitted)) = requests (trace w)
  /\ Popup.resultBox_children els2
     = [Popup.mkBlock (lit "result-block error")
          (lit "<strong>Error:</strong><br>"
           ++ lit "Flomo API URL is not set.")]
  /\ Popup.memoContent_value els2 = value.
Proof.
  intros Hstored Hfault Hvalue w1 els1 submitted els2.
  subst els2 submitted els1 w1.
  rewrite loadConfigAndSetup_run. rewrite Hfault, Hstored.
  destruct w as [tr [[els st] i store]]. cbn [snd heap trace] in *.
  cbn [Settings.empty_config Popup.sendToFlomo Popup.sendToObsidian
       Popup.flomoUrl Popup.obsidianVault Popup.obsidianToken
       Settings.or_default Settings.or_empty truthy_opt
       Settings.page Settings.inputs Settings.storage Popup.elements
       Popup.state Popup.sendToFlomo_checked Popup.sendToObsidian_checked
       Popup.submitButton_disabled Popup.submitButton_textContent
       negb andb submit_label typing].
  repeat (split; [reflexivity |]).
  unfold Settings.lift, typing.
  cbn [trace heap Settings.page Settings.inputs Settings.storage
       Popup.elements Popup.state Popup.set_memoContent_value
       Popup.memoContent_value Popup.submitButton_disabled
       Popup.submitButton_textContent Popup.statusMessage_textContent
       Popup.statusMessage_className Popup.resultBox_hidden
       Popup.resultBox_children Popup.sendToFlomo_checked
       Popup.sendToObsidian_checked].
  match goal with
  | |- context [Popup.submitNote env ?pw] => set (page_world := pw)
  end.
  assert (Hstarted : started page_world (FlomoAPI.new None)
                       (ObsidianWriter.new None None None)).
  { constructor; [exact Hvalue | reflexivity | reflexivity | reflexivity]. }
  destruct (submitNote_full env Hstarted) as (o1 & o2 & Hf & _ & _ & Hrun).
  assert (Ho1 : o1 = mkOutcome false (lit "Flomo API URL is not set.")).
  { pose proof (Hf unit (mkWorld tr tt) eq_refl) as E.
    cbv [FlomoAPI.sendToFlomo async] in E. cbn in E.
    now injection E as <-. }
  rewrite Hrun, Ho1. cbn [fst snd trace heap].
  split; [reflexivity |].
  split.
  { unfold page_world. cbn. rewrite requests_app. cbn. apply app_nil_r. }
  split; reflexivity.
Qed.

Lemma first_run_submission_reports_the_missing_url_witness :
  Popup.resultBox_children
    (Popup.elements
       (Settings.page
          (heap (snd (Settings.lift Popup.submitNote Sample.env
                        (typing (lit "hello")
                           (snd (Settings.loadConfigAndSetup Sample.env
                                   (SampleSettings.fresh
                                      SampleSettings.empty_store)))))))))
  = [Popup.mkBlock (lit "result-block error")
       (lit "<strong>Error:</strong><br>Flomo API URL is not set.")].
Proof.
  exact (proj1 (proj2 (proj2 (proj2 (proj2 (proj2 (proj2 (proj2
           (@first_run_submission_reports_the_missing_url Sample.env
              (SampleSettings.fresh SampleSettings.empty_store)
              (lit "hello") eq_refl eq_refl eq_refl))))))))).
Defined.

(** *** Connection tests *)

(** [FlomoAPI.testConnection] from any world, its events spelled out. *)
Lemma Flomo_testConnection_full (this : FlomoAPI.t) (env : Env)
  (tr : list Event) :
  let entered := tr ++ [EvCall FlomoAPI_testConnection] in
  let note := test_note (toLocaleString env (clock env entered)) in
  exists o : Outcome,
    forall (H : Type) (w : World H), trace w = tr ->
      FlomoAPI.testConnection this env w
      = (Normal (Fulfilled o),
         mkWorld (entered ++ flomo_events this note) (heap w)).
Proof.
  intros entered note.
  destruct (sendToFlomo_run this note env entered)
    as (o & sent & Hsent & Hrun).
  exists o. intros H [t h] Htr. cbn in Htr. subst t.
  pose proof (Hrun H (mkWorld entered h) eq_refl) as E.
  unfold FlomoAPI.testConnection, async, bind, new_Date,
    Date_toLocaleString; cbv beta iota zeta; cbn [trace heap].
  fold entered. unfold test_note in note. fold note.
  rewrite E. cbn. unfold flomo_events, flomo_sent. rewrite Hsent.
  reflexivity.
Qed.

(** X14. The Flomo test button tests what is typed, not what is saved: it
    runs [testConnection] on a client built from the trimmed content of the
    URL field, so its one request (none if the field is blank) goes to that
    URL whatever [state.flomoAPI] holds. It never throws, it changes
    neither the application state nor the storage nor the fields, and it
    ends with the outcome's message in the status line, styled success or
    error as the outcome says. *)
Theorem testFlomoConnection_tests_the_typed_url (env : Env)
  (w : World Settings.Window) :
  let window := heap w in
  let tempApi :=
    FlomoAPI.new
      (Some (trim (Settings.flomoUrlInput_value (Settings.inputs window)))) in
  let entered := trace w ++ [EvCall FlomoAPI_testConnection] in
  let note := test_note (toLocaleString env (clock env entered)) in
  exists o : Outcome,
    (forall (H : Type) (w0 : World H), trace w0 = trace w ->
        fst (FlomoAPI.testConnection tempApi env w0) = Normal (Fulfilled o))
    /\ Settings.testFlomoConnection env w
       = (Normal tt,
          mkWorld (entered ++ flomo_events tempApi note)
            (Settings.mkWindow
               (Popup.mkPage
                  (with_status (message o)
                     (if success o then lit "success" else lit "error")
                     (Popup.elements (Settings.page window)))
                  (Popup.state (Settings.page window)))
               (Settings.inputs window) (Settings.storage window))).
Proof.
  intros window tempApi entered note.
  destruct (Flomo_testConnection_full tempApi env (trace w)) as (o & Hrun).
  fold entered note in Hrun.
  exists o. split.
  { intros H w0 Htr. now rewrite (Hrun H w0 Htr). }
  subst window. destruct w as [tr [[els st] i store]].
  cbn [trace heap Settings.inputs Settings.page Settings.storage
       Popup.elements Popup.state] in *.
  unfold Settings.testFlomoConnection, Settings.read_input, Settings.lift,
    Popup.updateStatus, Popup.assign, modify_heap, get_heap, bind, ret.
  cbn [trace heap Settings.inputs Settings.page Settings.storage
       Popup.elements Popup.state fst snd].
  fold tempApi.
  match goal with
  | |- context [FlomoAPI.testConnection tempApi env ?w0] =>
      pose proof (Hrun _ w0 eq_refl) as E
  end.
  rewrite E. cbn. reflexivity.
Qed.

Lemma testFlomoConnection_tests_the_typed_url_witness :
  requests (trace (snd (Settings.testFlomoConnection Sample.env
                          (SampleSettings.fresh SampleSettings.empty_store))))
  = [webhook_request Sample.webhook
       (test_note (lit "1/5/2024, 9:03:07 AM"))].
Proof.
  destruct (testFlomoConnection_tests_the_typed_url Sample.env
              (SampleSettings.fresh SampleSettings.empty_store))
    as (o & _ & Hrun).
  rewrite Hrun. reflexivity.
Defined.

(** X15. The Obsidian test button likewise tests what is typed: the
    trimmed vault and token fields, always on port 27123. If either field
    is blank it sends nothing; otherwise its one request is the HEAD probe
    carrying the typed token. It never throws, changes neither the
    application state nor the storage nor the fields, and ends with the
    outcome's message in the status line, styled as the outcome says. *)
Theorem testObsidianConnection_tests_the_typed_settings (env : Env)
  (w : World Settings.Window) :
  let window := heap w in
  let vault :=
    trim (Settings.obsidianVaultInput_value (Settings.inputs window)) in
  let token :=
    trim (Settings.obsidianTokenInput_value (Settings.inputs window)) in
  let tempApi := ObsidianWriter.new (Some vault) (Some token) None in
  let sent :=
    if truthy vault && truthy token
    then [probe_request (loopback (lit "27123")) token]
    else [] in
  exists o : Outcome,
    (forall (H : Type) (w0 : World H), trace w0 = trace w ->
        fst (ObsidianWriter.testConnection tempApi env w0)
        = Normal (Fulfilled o))
    /\ Settings.testObsidianConnection env w
       = (Normal tt,
          mkWorld (trace w ++ EvCall ObsidianWriter_testConnection
                           :: map EvFetch sent)
            (Settings.mkWindow
               (Popup.mkPage
                  (with_status (message o)
                     (if success o then lit "success" else lit "error")
                     (Popup.elements (Settings.page window)))
                  (Popup.state (Settings.page window)))
               (Settings.inputs window) (Settings.storage window))).
Proof.
  intros window vault token tempApi sent.
  destruct (Obsidian_testConnection_run tempApi env (trace w))
    as (o & sent' & Hsent & Hrun).
  assert (Hsame : sent' = sent).
  { rewrite Hsent. unfold configured. subst tempApi.
    rewrite vaultName_new. unfold vault at 1. rewrite trim_idempotent.
    reflexivity. }
  rewrite Hsame in Hrun. clear Hsent Hsame sent'.
  exists o. split.
  { intros H w0 Htr. now rewrite (Hrun H w0 Htr). }
  subst window. destruct w as [tr [[els st] i store]].
  cbn [trace heap Settings.inputs Settings.page Settings.storage
       Popup.elements Popup.state] in *.
  unfold Settings.testObsidianConnection, Settings.read_input,
    Settings.lift, Popup.updateStatus, Popup.assign, modify_heap, get_heap,
    bind, ret.
  cbn [trace heap Settings.inputs Settings.page Settings.storage
       Popup.elements Popup.state fst snd].
  fold vault token. fold tempApi.
  match goal with
  | |- context [ObsidianWriter.testConnection tempApi env ?w0] =>
      pose proof (Hrun _ w0 eq_refl) as E
  end.
  rewrite E. cbn. reflexivity.
Qed.

Lemma testObsidianConnection_tests_the_typed_settings_witness :
  requests (trace (snd (Settings.testObsidianConnection Sample.env
                          (SampleSettings.fresh SampleSettings.empty_store))))
  = [probe_request (lit "http://127.0.0.1:27123") (lit "secret")].
Proof.
  destruct (testObsidianConnection_tests_the_typed_settings Sample.env
              (SampleSettings.fresh SampleSettings.empty_store))
    as (o & _ & Hrun).
  rewrite Hrun. reflexivity.
Defined.

(** *** File names *)

Lemma digit_inj (a b : nat) : digit a = digit b -> a = b.
Proof. unfold digit. lia. Qed.

Lemma two_digits_inj (n m : nat) : two_digits n = two_digits m -> n = m.
Proof.
  unfold two_digits. intros Heq.
  pose proof (f_equal (fun l => nth 0 l 0%N) Heq) as Htens.
  pose proof (f_equal (fun l => nth 1 l 0%N) Heq) as Hunits.
  cbn [nth] in Htens, Hunits.
  apply digit_inj in Htens. apply digit_inj in Hunits.
  rewrite (Nat.div_mod_eq n 10), (Nat.div_mod_eq m 10).
  now rewrite Htens, Hunits.
Qed.

Lemma four_digits_inj (y z : Z) :
  (0 <= y)%Z -> (0 <= z)%Z -> four_digits y = four_digits z -> y = z.
Proof.
  unfold four_digits. cbn [map]. intros Hy Hz Heq.
  pose proof (f_equal (fun l => nth 0 l 0%N) Heq) as H1.
  pose proof (f_equal (fun l => nth 1 l 0%N) Heq) as H2.
  pose proof (f_equal (fun l => nth 2 l 0%N) Heq) as H3.
  pose proof (f_equal (fun l => nth 3 l 0%N) Heq) as H4.
  cbn [nth] in H1, H2, H3, H4. clear Heq.
  assert (Ha : (y / 1000 = z / 1000)%Z).
  { pose proof (Z.div_pos y 1000 Hy). pose proof (Z.div_pos z 1000 Hz). lia. }
  assert (Hb : ((y / 100) mod 10 = (z / 100) mod 10)%Z).
  { pose proof (Z.mod_pos_bound (y / 100) 10).
    pose proof (Z.mod_pos_bound (z / 100) 10). lia. }
  assert (Hc : ((y / 10) mod 10 = (z / 10) mod 10)%Z).
  { pose proof (Z.mod_pos_bound (y / 10) 10).
    pose proof (Z.mod_pos_bound (z / 10) 10). lia. }
  assert (Hd : (y mod 10 = z mod 10)%Z).
  { pose proof (Z.mod_pos_bound y 10). pose proof (Z.mod_pos_bound z 10).
    lia. }
  clear H1 H2 H3 H4.
  Z.div_mod_to_equations. lia.
Qed.

Lemma app_inj_length (A : Type) (a a' b b' : list A) :
  List.length a = List.length a' -> a ++ b = a' ++ b' -> a = a' /\ b = b'.
Proof.
  revert a'. induction a as [| x a IH]; intros [| x' a'] Hlen Heq;
    cbn in Hlen; try discriminate.
  - split; [reflexivity | exact Heq].
  - cbn in Heq. injection Heq as Hx Hrest. injection Hlen as Hlen.
    destruct (IH a' Hlen Hrest) as [-> ->]. now subst x'.
Qed.

(** X16. For clock readings in four-digit years, the generated file name
    carries exactly the six local-time fields it is built from: two readings
    give the same name if and only if their local year, month, day, hour,
    minute and second agree. Nothing else of a reading enters the name, so
    readings that differ in their milliseconds alone give the same name. *)
Theorem generated_names_coincide_iff_local_fields_agree (d1 d2 : Date) :
  wall_clock d1 -> wall_clock d2 ->
  (ObsidianWriter.generateFileName_at d1
   = ObsidianWriter.generateFileName_at d2
   <-> same_second d1 d2).
Proof.
  intros Hw1 Hw2. split; [| apply generateFileName_at_same_second].
  rewrite (generateFileName_at_format Hw1), (generateFileName_at_format Hw2).
  destruct Hw1 as ((Hy1 & _) & _). destruct Hw2 as ((Hy2 & _) & _).
  unfold timestamp_name, MM_DD_HH_mm_ss_md.
  intros Hname.
  apply app_inj_length in Hname; [| reflexivity].
  destruct Hname as [Ey Hname].
  apply (app_inj_length (lit "-")) in Hname; [| reflexivity].
  destruct Hname as [_ Hname].
  apply app_inj_length in Hname; [| reflexivity].
  destruct Hname as [Emo Hname].
  apply (app_inj_length (lit "-")) in Hname; [| reflexivity].
  destruct Hname as [_ Hname].
  apply app_inj_length in Hname; [| reflexivity].
  destruct Hname as [Ed Hname].
  apply (app_inj_length (lit "_")) in Hname; [| reflexivity].
  destruct Hname as [_ Hname].
  apply app_inj_length in Hname; [| reflexivity].
  destruct Hname as [Eh Hname].
  apply (app_inj_length (lit "-")) in Hname; [| reflexivity].
  destruct Hname as [_ Hname].
  apply app_inj_length in Hname; [| reflexivity].
  destruct Hname as [Emi Hname].
  apply (app_inj_length (lit "-")) in Hname; [| reflexivity].
  destruct Hname as [_ Hname].
  apply app_inj_length in Hname; [| reflexivity].
  destruct Hname as [Es _].
  unfold same_second.
  apply four_digits_inj in Ey; [| lia | lia].
  apply two_digits_inj in Emo, Ed, Eh, Emi, Es.
  repeat split; try assumption. lia.
Qed.

Lemma generated_names_coincide_iff_local_fields_agree_witness :
  ObsidianWriter.generateFileName_at Sample.now
  = ObsidianWriter.generateFileName_at Sample.later
  <-> same_second Sample.now Sample.later.
Proof.
  apply generated_names_coincide_iff_local_fields_agree;
    unfold wall_clock, clock_fields; cbn; lia.
Defined.

(** *** Listeners *)

Lemma eqb_refl (a : jsstring) : eqb a a = true.
Proof.
  induction a as [| x a IH]; cbn; [reflexivity |].
  now rewrite N.eqb_refl, IH.
Qed.

Lemma calls_selected (toFlomo toObsidian : bool) (c1 c2 : ClientCall)
  (sent1 sent2 : list Request) :
  calls (List.concat (selected toFlomo toObsidian
                        (EvCall c1 :: map EvFetch sent1)
                        (EvCall c2 :: map EvFetch sent2)))
  = selected toFlomo toObsidian c1 c2.
Proof.
  assert (Hcalls : forall c l, calls (EvCall c :: map EvFetch l) = [c]).
  { intros c l. cbn. induction l as [| r l IH]; cbn; [reflexivity | exact IH]. }
  unfold selected. rewrite concat_app, calls_app.
  f_equal; [destruct toFlomo | destruct toObsidian]; cbn [List.concat];
    rewrite ?app_nil_r, ?Hcalls; reflexivity.
Qed.


(** X18. Nothing in the keyboard path looks at the submit button. On a
    page whose submission would start, Ctrl+Enter carries out the whole
    submission even while the button is disabled, as it is while an earlier
    submission is in flight: the selected clients are called and their
    requests sent once more. *)
Theorem shortcut_submits_while_button_is_disabled (env : Env)
  (w : World Settings.Window) (fa : FlomoAPI.t) (oa : ObsidianWriter.t) :
  started (page_world w) fa oa ->
  let els := Popup.elements (Settings.page (heap w)) in
  let content := trim (Popup.memoContent_value els) in
  let toFlomo := Popup.sendToFlomo_checked els in
  let toObsidian := Popup.sendToObsidian_checked els in
  Popup.submitButton_disabled els = true ->
  exists w' : World Settings.Window,
    Settings.memoContent_keydown true (lit "Enter") env w = (Normal true, w')
    /\ calls (trace w')
       = calls (trace w)
         ++ selected toFlomo toObsidian (FlomoAPI_sendToFlomo content)
              (ObsidianWriter_sendToObsidian content)
    /\ requests (trace w')
       = requests (trace w)
         ++ submission_sent fa oa content toFlomo toObsidian env (trace w).
Proof.
  intros Hstarted els content toFlomo toObsidian _.
  destruct (submitNote_full env Hstarted) as (o1 & o2 & _ & _ & _ & Hrun).
  unfold page_world in Hrun. cbn [trace heap] in Hrun.
  fold els content toFlomo toObsidian in Hrun.
  unfold Settings.memoContent_keydown, Settings.detached, Settings.lift,
    bind, ret.
  rewrite eqb_refl. cbn [andb]. rewrite Hrun. cbn [trace heap].
  eexists. split; [reflexivity |]. cbn [trace].
  rewrite calls_app, requests_app.
  unfold flomo_events, obsidian_events.
  rewrite calls_selected, requests_selected.
  split; reflexivity.
Qed.

Lemma shortcut_submits_while_button_is_disabled_witness :
  exists w' : World Settings.Window,
    Settings.memoContent_keydown true (lit "Enter") Sample.env
      SampleSettings.busy
    = (Normal true, w')
    /\ calls (trace w') = [FlomoAPI_sendToFlomo (lit "hello")]
    /\ requests (trace w') = [webhook_request Sample.webhook (lit "hello")].
Proof.
  exact (@shortcut_submits_while_button_is_disabled Sample.env
           SampleSettings.busy Sample.flomo Sample.obsidian
           (@mkStarted (page_world SampleSettings.busy)
                       Sample.flomo Sample.obsidian
                       eq_refl eq_refl eq_refl eq_refl)
           eq_refl).
Defined.


(** X19. What is saved is what the next submission uses. After a
    successful [saveConfig] the handlers hold the trimmed fields: the
    webhook URL is the trimmed URL field, the vault name the trimmed vault
    field, the token the trimmed token field, the port 27123. A note typed
    and submitted afterwards is sent by exactly these handlers. *)
Theorem saved_settings_drive_the_next_submission (env env' : Env)
  (w : World Settings.Window) (value : jsstring) :
  Settings.storage_fault (Settings.storage (heap w)) = None ->
  let i := Settings.inputs (heap w) in
  let els := Popup.elements (Settings.page (heap w)) in
  let toFlomo := Popup.sendToFlomo_checked els in
  let toObsidian := Popup.sendToObsidian_checked els in
  truthy (trim value) = true ->
  toFlomo || toObsidian = true ->
  let w1 := snd (Settings.saveConfig env w) in
  let submitted := Settings.lift Popup.submitNote env' (typing value w1) in
  exists (fa : FlomoAPI.t) (oa : ObsidianWriter.t),
    Popup.flomoAPI (Popup.state (Settings.page (heap w1))) = Some fa
    /\ Popup.obsidianAPI (Popup.state (Settings.page (heap w1))) = Some oa
    /\ FlomoAPI.api_url fa = Some (trim (Settings.flomoUrlInput_value i))
    /\ ObsidianWriter.vaultName oa
       = trim (Settings.obsidianVaultInput_value i)
    /\ ObsidianWriter.apiToken oa
       = Some (trim (Settings.obsidianTokenInput_value i))
    /\ ObsidianWriter.apiUrl oa = loopback (lit "27123")
    /\ fst submitted = Normal tt
    /\ requests (trace (snd submitted))
       = requests (trace w)
         ++ submission_sent fa oa (trim value) toFlomo toObsidian env'
              (trace w).
Proof.
  intros Hfault i els toFlomo toObsidian Hvalue Hdest w1 submitted.
  subst submitted w1. rewrite saveConfig_run.
  cbn [snd]. rewrite Hfault.
  eexists _, _. split; [reflexivity |]. split; [reflexivity |].
  split; [reflexivity |].
  split.
  { rewrite vaultName_new. cbn [typed_config Popup.obsidianVault].
    apply trim_idempotent. }
  split; [reflexivity |]. split; [reflexivity |].
  unfold Settings.lift, typing.
  cbn [trace heap Settings.page Settings.inputs Settings.storage
       Popup.elements Popup.state].
  match goal with
  | |- context [Popup.submitNote env' ?pw] => set (pw0 := pw)
  end.
  assert (Hstarted : started pw0
                       (FlomoAPI.new (Popup.flomoUrl (typed_config i els)))
                       (ObsidianWriter.new
                          (Popup.obsidianVault (typed_config i els))
                          (Popup.obsidianToken (typed_config i els)) None)).
  { constructor; [exact Hvalue | exact Hdest | reflexivity | reflexivity]. }
  destruct (submitNote_full env' Hstarted) as (o1 & o2 & _ & _ & _ & Hrun).
  rewrite Hrun. cbn [fst snd trace heap].
  split; [reflexivity |].
  rewrite requests_app. unfold flomo_events, obsidian_events.
  rewrite requests_selected. reflexivity.
Qed.

Lemma saved_settings_drive_the_next_submission_witness :
  requests
    (trace (snd (Settings.lift Popup.submitNote Sample.env
                   (typing (lit "hello")
                      (snd (Settings.saveConfig Sample.env
                              (SampleSettings.fresh
                                 SampleSettings.empty_store)))))))
  = [webhook_request Sample.webhook (lit "hello");
     notes_request (lit "http://127.0.0.1:27123") (lit "secret")
       (lit "Notes") (lit "2024-01-05_09-03-07.md") (lit "hello")].
Proof.
  destruct (@saved_settings_drive_the_next_submission Sample.env Sample.env
              (SampleSettings.fresh SampleSettings.empty_store)
              (lit "hello") eq_refl eq_refl eq_refl)
    as (fa & oa & Hfa & Hoa & _ & _ & _ & _ & _ & Hreqs).
  injection Hfa as <-. injection Hoa as <-. exact Hreqs.
Defined.

(** *** Handlers, once installed *)

(** With both handlers in place [submitNote] completes on every page and
    leaves the application state alone. *)
Lemma submitNote_completes (env : Env) (w : World Popup.Page)
  (fa : FlomoAPI.t) (oa : ObsidianWriter.t) :
  Popup.flomoAPI (Popup.state (heap w)) = Some fa ->
  Popup.obsidianAPI (Popup.state (heap w)) = Some oa ->
  fst (Popup.submitNote env w) = Normal tt
  /\ Popup.state (heap (snd (Popup.submitNote env w))) = Popup.state (heap w).
Proof.
  intros Hfa Hoa.
  destruct (truthy (trim (Popup.memoContent_value
                            (Popup.elements (heap w))))) eqn:Hcontent.
  - destruct (Popup.sendToFlomo_checked (Popup.elements (heap w))
              || Popup.sendToObsidian_checked (Popup.elements (heap w)))
      eqn:Hdest.
    + destruct (submitNote_full env (mkStarted w Hcontent Hdest Hfa Hoa))
        as (o1 & o2 & _ & _ & _ & Hrun).
      rewrite Hrun. split; reflexivity.
    + destruct w as [tr [e st]].
      destruct e as [v dis txt smt smc rh rc tf to].
      cbn in Hcontent, Hdest. apply orb_false_iff in Hdest.
      destruct Hdest as [-> ->].
      unfold_popup. cbn. rewrite Hcontent. split; reflexivity.
  - destruct w as [tr [e st]].
    destruct e as [v dis txt smt smc rh rc tf to].
    cbn in Hcontent. unfold_popup. cbn. rewrite Hcontent.
    split; reflexivity.
Qed.

(** X20. Once both API handlers are in place they stay in place, and no
    handler of the popup throws: submitting (valid input or not), saving
    and loading the configuration (whether the storage answers or fails)
    and both connection tests all complete and leave both handlers
    installed. *)
Theorem handlers_stay_installed (env : Env) (w : World Settings.Window) :
  ready w ->
  (fst (Settings.lift Popup.submitNote env w) = Normal tt
   /\ ready (snd (Settings.lift Popup.submitNote env w)))
  /\ (fst (Settings.saveConfig env w) = Normal tt
      /\ ready (snd (Settings.saveConfig env w)))
  /\ (fst (Settings.loadConfigAndSetup env w) = Normal tt
      /\ ready (snd (Settings.loadConfigAndSetup env w)))
  /\ (fst (Settings.testFlomoConnection env w) = Normal tt
      /\ ready (snd (Settings.testFlomoConnection env w)))
  /\ (fst (Settings.testObsidianConnection env w) = Normal tt
      /\ ready (snd (Settings.testObsidianConnection env w))).
Proof.
  intros [Hfa Hoa].
  destruct (Popup.flomoAPI (Popup.state (Settings.page (heap w))))
    as [fa |] eqn:Efa; [| contradiction].
  destruct (Popup.obsidianAPI (Popup.state (Settings.page (heap w))))
    as [oa |] eqn:Eoa; [| contradiction].
  split; [| split; [| split; [| split]]].
  - destruct (@submitNote_completes env (page_world w) fa oa Efa Eoa)
      as [Hdone Hstate].
    unfold Settings.lift. fold (page_world w).
    destruct (Popup.submitNote env (page_world w)) as [r pw'].
    cbn [fst snd] in *. split; [exact Hdone |].
    unfold ready. cbn [heap Settings.page]. rewrite Hstate.
    unfold page_world. cbn [heap]. rewrite Efa, Eoa. split; discriminate.
  - rewrite saveConfig_run. cbn [fst snd]. split; [reflexivity |].
    unfold ready. cbn [heap].
    destruct (Settings.storage_fault (Settings.storage (heap w)));
      cbn; rewrite ?Efa, ?Eoa; split; discriminate.
  - rewrite loadConfigAndSetup_run. cbn [fst snd]. split; [reflexivity |].
    unfold ready. cbn [heap].
    destruct (Settings.storage_fault (Settings.storage (heap w)));
      cbn; rewrite ?Efa, ?Eoa; split; discriminate.
  - set (tempApi :=
           FlomoAPI.new
             (Some (trim (Settings.flomoUrlInput_value
                            (Settings.inputs (heap w)))))).
    destruct (Flomo_testConnection_full tempApi env (trace w)) as (o & Hrun).
    destruct w as [tr [[els st] i store]].
    cbn [trace heap Settings.inputs Settings.page Settings.storage
         Popup.elements Popup.state] in *.
    unfold Settings.testFlomoConnection, Settings.read_input, Settings.lift,
      Popup.updateStatus, Popup.assign, modify_heap, get_heap, bind, ret.
    cbn [trace heap Settings.inputs Settings.page Settings.storage
         Popup.elements Popup.state fst snd].
    fold tempApi.
    match goal with
    | |- context [FlomoAPI.testConnection tempApi env ?w0] =>
        pose proof (Hrun _ w0 eq_refl) as E
    end.
    rewrite E. cbn. split; [reflexivity |].
    unfold ready. cbn. rewrite Efa, Eoa. split; discriminate.
  - set (tempApi :=
           ObsidianWriter.new
             (Some (trim (Settings.obsidianVaultInput_value
                            (Settings.inputs (heap w)))))
             (Some (trim (Settings.obsidianTokenInput_value
                            (Settings.inputs (heap w)))))
             None).
    destruct (Obsidian_testConnection_run tempApi env (trace w))
      as (o & sent & _ & Hrun).
    destruct w as [tr [[els st] i store]].
    cbn [trace heap Settings.inputs Settings.page Settings.storage
         Popup.elements Popup.state] in *.
    unfold Settings.testObsidianConnection, Settings.read_input,
      Settings.lift, Popup.updateStatus, Popup.assign, modify_heap,
      get_heap, bind, ret.
    cbn [trace heap Settings.inputs Settings.page Settings.storage
         Popup.elements Popup.state fst snd].
    fold tempApi.
    match goal with
    | |- context [ObsidianWriter.testConnection tempApi env ?w0] =>
        pose proof (Hrun _ w0 eq_refl) as E
    end.
    rewrite E. cbn. split; [reflexivity |].
    unfold ready. cbn. rewrite Efa, Eoa. split; discriminate.
Qed.

Lemma handlers_stay_installed_witness :
  fst (Settings.lift Popup.submitNote Sample.env
         (snd (Settings.saveConfig Sample.env
                 (SampleSettings.fresh SampleSettings.empty_store))))
  = Normal tt.
Proof.
  apply (handlers_stay_installed Sample.env
           (w := snd (Settings.saveConfig Sample.env
                        (SampleSettings.fresh SampleSettings.empty_store)))).
  split; discriminate.
Defined.
